(** * fortnitepy: received messages and the command error taxonomy

    A shallow embedding of [fortnitepy/message.py] and
    [fortnitepy/ext/commands/errors.py], with the properties of their
    specification stated and proved over it.

    - [Message]: the message entities, their accessors, attribute assignment
      and [reply], over an explicit world (wall clock and transport log).
    - [Py]: the fragment of the Python runtime the error constructors rely on
      (dynamic values, [str], [repr], [format], exception objects).
    - [Errors]: the error classes, their [__init__] chains and messages. *)

From Stdlib Require Import ZArith Lia QArith Qround Qpower Qabs Lqa Ascii.
From Stdlib Require Import Floats.SpecFloat.
From stdpp Require Import base option list strings pretty gmap.

Local Open Scope Z_scope.
Local Open Scope string_scope.

(* ===================================================================== *)
(** * message.py *)
(* ===================================================================== *)

Module Message.

(** [datetime.datetime] values, as microseconds since the epoch. *)
Definition datetime := Z.

(** What an attribute assignment or a call can do besides returning. *)
Inductive Outcome (A : Type) : Type :=
| Done (a : A)
| AttributeError (what : string).
Arguments Done {A} a.
Arguments AttributeError {A} what.

Section Entities.

(** The collaborators of the package are opaque here: [Client], [Friend],
    [PartyMember] and [ClientParty] live in modules this file only names
    under [TYPE_CHECKING]. [Sent] is whatever a send primitive hands back. *)
Variables Client Friend PartyMember ClientParty Sent : Type.

(** ** The world a message lives in *)

(** The objects that own a [send] coroutine a reply could reach. *)
Inductive Recipient : Type :=
| ToFriend (f : Friend)
| ToMember (m : PartyMember)
| ToParty (p : ClientParty).

(** One call of a send primitive, as the transport sees it. *)
Record SendCall : Type := { recipient : Recipient; payload : string }.

(** The wall clock read by [datetime.datetime.utcnow()] and the calls the
    transport has received so far, oldest first. *)
Record World : Type := { clock : datetime; sent : list SendCall }.

(** The transport decides what a send returns, from the call and from what
    was sent before. *)
Variable transport : SendCall -> list SendCall -> Sent.

(** Computations that read and change the world (coroutines once awaited,
    and constructors, which read the clock). *)
Definition IO (A : Type) : Type := World -> A * World.

Definition ret {A} (a : A) : IO A := fun w => (a, w).
Definition bind {A B} (m : IO A) (k : A -> IO B) : IO B :=
  fun w => let (a, w') := m w in k a w'.

Definition utcnow : IO datetime := fun w => (clock w, w).

Definition send_to (r : Recipient) (content : string) : IO Sent :=
  fun w =>
    let call := {| recipient := r; payload := content |} in
    (transport call (sent w),
     {| clock := clock w; sent := sent w ++ [call] |}).

(** [Friend.send] and [ClientParty.send], the two primitives [reply] uses. *)
Definition Friend_send (f : Friend) (content : string) : IO Sent :=
  send_to (ToFriend f) content.
Definition ClientParty_send (p : ClientParty) (content : string) : IO Sent :=
  send_to (ToParty p) content.

(** ** MessageBase *)

(** [__slots__ = ('_client', '_author', '_content', '_created_at')]; the
    author is a [Friend] or a [PartyMember] depending on the subclass. *)
Record MessageBase (Author : Type) : Type := {
  _client : Client;
  _author : Author;
  _content : string;
  _created_at : datetime
}.
Arguments _client {Author} _.
Arguments _author {Author} _.
Arguments _content {Author} _.
Arguments _created_at {Author} _.

Definition MessageBase_init {Author} (client : Client) (author : Author)
    (content : string) : IO (MessageBase Author) :=
  bind utcnow (fun now =>
  ret {| _client := client; _author := author;
         _content := content; _created_at := now |}).

(** The four properties. *)
Definition client {Author} (self : MessageBase Author) : Client :=
  _client self.
Definition author {Author} (self : MessageBase Author) : Author :=
  _author self.
Definition content {Author} (self : MessageBase Author) : string :=
  _content self.
Definition created_at {Author} (self : MessageBase Author) : datetime :=
  _created_at self.

(** An assignment statement [self.<name> = value]. The first four names
    are the properties (none has a setter), the next four are the slots
    behind them, the last one is the [party] slot of [PartyMessage]. *)
Inductive Assign (Author : Type) : Type :=
| set_client (c : Client)
| set_author (a : Author)
| set_content (s : string)
| set_created_at (t : datetime)
| set__client (c : Client)
| set__author (a : Author)
| set__content (s : string)
| set__created_at (t : datetime)
| set_party (p : ClientParty).
Arguments set_client {Author} c.
Arguments set_author {Author} a.
Arguments set_content {Author} s.
Arguments set_created_at {Author} t.
Arguments set__client {Author} c.
Arguments set__author {Author} a.
Arguments set__content {Author} s.
Arguments set__created_at {Author} t.
Arguments set_party {Author} p.

(** Assignment on the part every message shares: a property without a
    setter refuses, a slot takes the value. [None] when the name is not
    one of the base class. *)
Definition MessageBase_setattr {Author} (self : MessageBase Author)
    (a : Assign Author) : option (Outcome (MessageBase Author)) :=
  match a with
  | set_client _ => Some (AttributeError "client")
  | set_author _ => Some (AttributeError "author")
  | set_content _ => Some (AttributeError "content")
  | set_created_at _ => Some (AttributeError "created_at")
  | set__client c =>
      Some (Done {| _client := c; _author := _author self;
                    _content := _content self;
                    _created_at := _created_at self |})
  | set__author x =>
      Some (Done {| _client := _client self; _author := x;
                    _content := _content self;
                    _created_at := _created_at self |})
  | set__content s =>
      Some (Done {| _client := _client self; _author := _author self;
                    _content := s; _created_at := _created_at self |})
  | set__created_at t =>
      Some (Done {| _client := _client self; _author := _author self;
                    _content := _content self; _created_at := t |})
  | set_party _ => None
  end.

(** ** FriendMessage *)

Definition FriendMessage : Type := MessageBase Friend.

Definition FriendMessage_init (client : Client) (author : Friend)
    (content : string) : IO FriendMessage :=
  MessageBase_init client author content.

(** [return await self.author.send(content)] *)
Definition FriendMessage_reply (self : FriendMessage) (content : string)
    : IO Sent :=
  Friend_send (author self) content.

(** The class has slots only, so a name it does not declare is refused. *)
Definition FriendMessage_setattr (self : FriendMessage)
    (a : Assign Friend) : Outcome FriendMessage :=
  match MessageBase_setattr self a with
  | Some r => r
  | None => AttributeError "party"
  end.

(** ** PartyMessage *)

(** [__slots__ = MessageBase.__slots__ + ('party',)] *)
Record PartyMessage : Type := {
  base : MessageBase PartyMember;
  party : ClientParty
}.

Definition PartyMessage_init (client : Client) (party : ClientParty)
    (author : PartyMember) (content : string) : IO PartyMessage :=
  bind (MessageBase_init client author content) (fun b =>
  ret {| base := b; party := party |}).

(** [return await self.party.send(content)] *)
Definition PartyMessage_reply (self : PartyMessage) (content : string)
    : IO Sent :=
  ClientParty_send (party self) content.

Definition PartyMessage_setattr (self : PartyMessage)
    (a : Assign PartyMember) : Outcome PartyMessage :=
  match a with
  | set_party p => Done {| base := base self; party := p |}
  | _ =>
      match MessageBase_setattr (base self) a with
      | Some (Done b) => Done {| base := b; party := party self |}
      | Some (AttributeError what) => AttributeError what
      | None => AttributeError "party"
      end
  end.

(** ** Either variant *)

Inductive AnyMessage : Type :=
| Direct (m : FriendMessage)
| Group (m : PartyMessage).

Definition reply (m : AnyMessage) (content : string) : IO Sent :=
  match m with
  | Direct m => FriendMessage_reply m content
  | Group m => PartyMessage_reply m content
  end.

(** The calls a computation adds to the transport log. *)
Definition calls_made {A} (m : IO A) (w : World) : list SendCall :=
  drop (length (sent w)) (sent (snd (m w))).

End Entities.

Arguments ToFriend {Friend PartyMember ClientParty} f.
Arguments ToMember {Friend PartyMember ClientParty} m.
Arguments ToParty {Friend PartyMember ClientParty} p.
Arguments Build_SendCall {Friend PartyMember ClientParty} recipient payload.
Arguments recipient {Friend PartyMember ClientParty} s.
Arguments payload {Friend PartyMember ClientParty} s.
Arguments Build_World {Friend PartyMember ClientParty} clock sent.
Arguments clock {Friend PartyMember ClientParty} w.
Arguments sent {Friend PartyMember ClientParty} w.
Arguments ret {Friend PartyMember ClientParty A} a w.
Arguments bind {Friend PartyMember ClientParty A B} m k w.
Arguments utcnow {Friend PartyMember ClientParty} w.
Arguments send_to {Friend PartyMember ClientParty Sent} transport r content w.
Arguments Friend_send {Friend PartyMember ClientParty Sent} transport f content w.
Arguments ClientParty_send {Friend PartyMember ClientParty Sent} transport p content w.
Arguments Build_MessageBase {Client Author} _client _author _content _created_at.
Arguments _client {Client Author} m.
Arguments _author {Client Author} m.
Arguments _content {Client Author} m.
Arguments _created_at {Client Author} m.
Arguments MessageBase_init {Client Friend PartyMember ClientParty Author}
  client author content w.
Arguments client {Client Author} self.
Arguments author {Client Author} self.
Arguments content {Client Author} self.
Arguments created_at {Client Author} self.
Arguments set_client {Client ClientParty Author} c.
Arguments set_author {Client ClientParty Author} a.
Arguments set_content {Client ClientParty Author} s.
Arguments set_created_at {Client ClientParty Author} t.
Arguments set__client {Client ClientParty Author} c.
Arguments set__author {Client ClientParty Author} a.
Arguments set__content {Client ClientParty Author} s.
Arguments set__created_at {Client ClientParty Author} t.
Arguments set_party {Client ClientParty Author} p.
Arguments MessageBase_setattr {Client ClientParty Author} self a.
Arguments FriendMessage_init {Client Friend PartyMember ClientParty}
  client author content w.
Arguments FriendMessage_reply {Client Friend PartyMember ClientParty Sent}
  transport self content w.
Arguments FriendMessage_setattr {Client Friend ClientParty} self a.
Arguments Build_PartyMessage {Client PartyMember ClientParty} base party.
Arguments base {Client PartyMember ClientParty} p.
Arguments party {Client PartyMember ClientParty} p.
Arguments PartyMessage_init {Client Friend PartyMember ClientParty}
  client party author content w.
Arguments PartyMessage_reply {Client Friend PartyMember ClientParty Sent}
  transport self content w.
Arguments PartyMessage_setattr {Client PartyMember ClientParty} self a.
Arguments Direct {Client Friend PartyMember ClientParty} m.
Arguments Group {Client Friend PartyMember ClientParty} m.
Arguments reply {Client Friend PartyMember ClientParty Sent}
  transport m content w.
Arguments calls_made {Friend PartyMember ClientParty A} m w.

End Message.

(* ===================================================================== *)
(** * The Python runtime the error classes rely on *)
(* ===================================================================== *)

Module Py.

(** ** Raising and returning *)

Inductive exc : Set := TypeError | AttributeError | ValueError | OverflowError.

Inductive Result (A : Type) : Type :=
| Ok (a : A)
| Raise (e : exc).
Arguments Ok {A} a.
Arguments Raise {A} e.

#[export] Instance Result_ret : MRet Result := fun _ a => Ok a.
#[export] Instance Result_bind : MBind Result := fun _ _ k m =>
  match m with
  | Ok a => k a
  | Raise e => Raise e
  end.

(** ** Values *)

(** A [float] is an IEEE 754 binary64 number. *)
Definition float : Set := spec_float.
Definition prec : Z := 53.
Definition emax : Z := 1024.

(** An object of a class defined outside the modelled files: its class
    name, the string attributes the constructors read ([name], [__name__]),
    what [str] and [repr] give for it, and its truth value. *)
Record Obj : Type := {
  obj_class : string;
  obj_attrs : gmap string string;
  obj_str : string;
  obj_repr : string;
  obj_bool : bool
}.

(** A [str] is a sequence of code points below 256, one per character. *)
#[warnings="-register-all"]
Inductive PyVal : Type :=
| PyNone
| PyStr (s : string)
| PyInt (n : Z)
| PyFloat (x : float)
| PyTuple (items : list PyVal)
| PyList (items : list PyVal)
| PyObj (o : Obj).

(** ** Strings *)

(** The double quote character. *)
Definition dquote : ascii := ascii_of_N 34.
Definition squote : ascii := ascii_of_N 39.
Definition backslash : ascii := ascii_of_N 92.

(** [sep.join(items)] *)
Fixpoint join (sep : string) (items : list string) : string :=
  match items with
  | [] => ""
  | [x] => x
  | x :: rest => x +:+ sep +:+ join sep rest
  end.

Fixpoint contains (c : ascii) (s : string) : bool :=
  match s with
  | EmptyString => false
  | String c' s' => bool_decide (c = c') || contains c s'
  end.

(** [s.endswith(suffix)]: [suffix] is [s] or one of its tails. *)
Fixpoint endswith (s suffix : string) : bool :=
  bool_decide (s = suffix)
  || match s with
     | EmptyString => false
     | String _ s' => endswith s' suffix
     end.

Definition hex_digit (n : N) : ascii :=
  match n with
  | 0 => "0" | 1 => "1" | 2 => "2" | 3 => "3" | 4 => "4" | 5 => "5"
  | 6 => "6" | 7 => "7" | 8 => "8" | 9 => "9" | 10 => "a" | 11 => "b"
  | 12 => "c" | 13 => "d" | 14 => "e" | _ => "f"
  end%char%N.

(** [str.isprintable] on one code point below 256. *)
Definition printable (c : ascii) : bool :=
  let n := N_of_ascii c in
  ((32 <=? n) && (n <? 127) || (161 <=? n) && negb (n =? 173))%N.

(** One character of [repr(s)], inside quotes of kind [quote]. *)
Definition repr_char (quote c : ascii) : string :=
  let n := N_of_ascii c in
  if bool_decide (c = quote) || bool_decide (c = backslash)
  then String backslash (String c "")
  else if (n =? 9)%N then String backslash "t"
  else if (n =? 10)%N then String backslash "n"
  else if (n =? 13)%N then String backslash "r"
  else if printable c then String c ""
  else String backslash
         (String "x" (String (hex_digit (n / 16)) (String (hex_digit (n mod 16)) ""))).

Fixpoint repr_chars (quote : ascii) (s : string) : string :=
  match s with
  | EmptyString => ""
  | String c s' => repr_char quote c +:+ repr_chars quote s'
  end.

(** [repr] of a [str]: single quotes, unless the text has a single quote
    and no double quote. *)
Definition str_repr (s : string) : string :=
  let quote := if contains squote s && negb (contains dquote s)
               then dquote else squote in
  String quote (repr_chars quote s +:+ String quote "").

(** ** Floats *)

(** [float(n)] for an [int]; infinite when [n] is out of range. *)
Definition float_of_int (n : Z) : float := binary_normalize prec emax n 0 false.

(** The exact magnitude of the finite float with mantissa [m] and
    exponent [e]. *)
Definition magnitude (m : positive) (e : Z) : Q :=
  (inject_Z (Zpos m) * 2 ^ e)%Q.

(** Nearest integer, a tie going to the even one. *)
Definition round_half_even (q : Q) : Z :=
  let f := Qfloor q in
  match (q - inject_Z f ?= 1 # 2)%Q with
  | Lt => f
  | Gt => (f + 1)%Z
  | Eq => if Z.even f then f else (f + 1)%Z
  end.

Definition digit (d : Z) : ascii := pretty_N_char (Z.to_N d).

(** The last [p] decimal digits of [n], most significant first. *)
Fixpoint low_digits (p : nat) (n : Z) : string :=
  match p with
  | O => ""
  | S p' => low_digits p' (n / 10) +:+ String (digit (n mod 10)) ""
  end.

Definition sign_str (s : bool) : string := if s then "-" else "".

(** [format(x, '.<p>f')], [p] positive: the decimal expansion of [x]
    correctly rounded to [p] fractional digits. *)
Definition format_f (p : nat) (x : float) : string :=
  match x with
  | S754_nan => "nan"
  | S754_infinity s => sign_str s +:+ "inf"
  | S754_zero s => sign_str s +:+ "0." +:+ low_digits p 0
  | S754_finite s m e =>
      let n := round_half_even (magnitude m e * inject_Z (10 ^ Z.of_nat p)) in
      sign_str s +:+ pretty (n / 10 ^ Z.of_nat p)%Z +:+ "." +:+ low_digits p n
  end.

Definition pow10 (k : Z) : Q := (10 ^ k)%Q.

(** The largest [k'] from [k] on, at most [fuel] steps away, with
    [10 ^ k' <= v]. *)
Fixpoint dec_exponent (fuel : nat) (k : Z) (v : Q) : Z :=
  match fuel with
  | O => k
  | S fuel' =>
      if Qle_bool (pow10 (k + 1)) v then dec_exponent fuel' (k + 1)%Z v else k
  end.

(** Does reading the real [c] back give the float [m * 2 ^ e]? The float
    owns the reals up to half-way to its neighbours, the end points too
    when [m] is even; below a power of two the lower neighbour is half as
    far. *)
Definition rounds_to (m : positive) (e : Z) (c : Q) : bool :=
  let below := if ((Zpos m =? 2 ^ 52)%Z && (-1074 <? e)%Z)
               then (1 # 4)%Q else (1 # 2)%Q in
  let lo := ((inject_Z (Zpos m) - below) * 2 ^ e)%Q in
  let hi := ((inject_Z (Zpos m) + (1 # 2)) * 2 ^ e)%Q in
  if Z.even (Zpos m) then Qle_bool lo c && Qle_bool c hi
  else negb (Qle_bool c lo) && negb (Qle_bool hi c).

Definition Qdist (a b : Q) : Q :=
  if Qle_bool a b then (b - a)%Q else (a - b)%Q.

(** The shortest decimal [d * 10 ^ q] that reads back as the float, the
    closest one among those of that length; [n] digits are tried first. *)
Fixpoint shortest_from (fuel : nat) (n : Z) (m : positive) (e k : Z) : Z * Z :=
  let v := magnitude m e in
  let q := (k - n + 1)%Z in
  let lo := Qfloor (v / pow10 q) in
  let hi := (lo + 1)%Z in
  let lo_ok := rounds_to m e (inject_Z lo * pow10 q) in
  let hi_ok := rounds_to m e (inject_Z hi * pow10 q) in
  let pick :=
    match lo_ok, hi_ok with
    | true, true =>
        if Qle_bool (Qdist (inject_Z lo * pow10 q) v)
                    (Qdist (inject_Z hi * pow10 q) v)
        then Some lo else Some hi
    | true, false => Some lo
    | false, true => Some hi
    | false, false => None
    end in
  match pick, fuel with
  | Some d, _ => (d, q)
  | None, O => (lo, q)
  | None, S fuel' => shortest_from fuel' (n + 1)%Z m e k
  end.

Definition shortest (m : positive) (e : Z) : Z * Z :=
  let k := dec_exponent 800 (-400) (magnitude m e) in
  let '(d, q) := shortest_from 17 1 m e k in
  if (d =? 10)%Z then (1, q + 1)%Z else (d, q).

Fixpoint zeros (n : nat) : string :=
  match n with
  | O => ""
  | S n' => String "0" (zeros n')
  end.

Definition str_take (n : nat) (s : string) : string := String.substring 0 n s.
Definition str_drop (n : nat) (s : string) : string :=
  String.substring n (String.length s - n) s.

(** [repr(x)] for a [float]: the shortest digits that read back as [x],
    in positional notation when the decimal point falls within them or
    close by, with an exponent otherwise. *)
Definition float_repr (x : float) : string :=
  match x with
  | S754_nan => "nan"
  | S754_infinity s => sign_str s +:+ "inf"
  | S754_zero s => sign_str s +:+ "0.0"
  | S754_finite s m e =>
      let '(d, q) := shortest m e in
      let ds := pretty d in
      let n := Z.of_nat (String.length ds) in
      let decpt := (n + q)%Z in
      sign_str s +:+
      (if ((-4 <? decpt)%Z && (decpt <=? 16)%Z) then
         if (decpt <=? 0)%Z then "0." +:+ zeros (Z.to_nat (- decpt)) +:+ ds
         else if (n <=? decpt)%Z
              then ds +:+ zeros (Z.to_nat (decpt - n)) +:+ ".0"
              else str_take (Z.to_nat decpt) ds +:+ "." +:+
                   str_drop (Z.to_nat decpt) ds
       else
         let ex := (decpt - 1)%Z in
         str_take 1 ds +:+ (if (1 <? n)%Z then "." +:+ str_drop 1 ds else "")
         +:+ "e" +:+ (if (ex <? 0)%Z then "-" else "+") +:+
         (if (Z.abs ex <? 10)%Z then "0" else "") +:+ pretty (Z.abs ex))
  end.

(** ** [repr], [str], truth, attributes *)

Fixpoint py_repr (v : PyVal) : string :=
  match v with
  | PyNone => "None"
  | PyStr s => str_repr s
  | PyInt n => pretty n
  | PyFloat x => float_repr x
  | PyTuple items =>
      match items with
      | [x] => "(" +:+ py_repr x +:+ ",)"
      | _ => "(" +:+ join ", " (map py_repr items) +:+ ")"
      end
  | PyList items => "[" +:+ join ", " (map py_repr items) +:+ "]"
  | PyObj o => obj_repr o
  end.

(** [str(v)], which is also [format(v, '')] and what [%s] renders. *)
Definition py_str (v : PyVal) : string :=
  match v with
  | PyStr s => s
  | PyObj o => obj_str o
  | _ => py_repr v
  end.

(** [bool(v)] *)
Definition py_bool (v : PyVal) : bool :=
  match v with
  | PyNone => false
  | PyStr s => negb (bool_decide (s = ""))
  | PyInt n => negb (n =? 0)%Z
  | PyFloat (S754_zero _) => false
  | PyFloat _ => true
  | PyTuple items | PyList items => negb (bool_decide (length items = 0%nat))
  | PyObj o => obj_bool o
  end.

(** [a or b] *)
Definition py_or (a b : PyVal) : PyVal := if py_bool a then a else b.

Definition is_none (v : PyVal) : bool :=
  match v with PyNone => true | _ => false end.

(** [v.__class__.__name__] *)
Definition class_name (v : PyVal) : string :=
  match v with
  | PyNone => "NoneType"
  | PyStr _ => "str"
  | PyInt _ => "int"
  | PyFloat _ => "float"
  | PyTuple _ => "tuple"
  | PyList _ => "list"
  | PyObj o => obj_class o
  end.

(** [v.<attr>] for the attributes read by the error classes, [name] and
    [__name__]; none of the built-in values above has either. *)
Definition getattr (v : PyVal) (attr : string) : Result string :=
  match v with
  | PyObj o =>
      match obj_attrs o !! attr with
      | Some s => Ok s
      | None => Raise AttributeError
      end
  | _ => Raise AttributeError
  end.

(** [list(v)]: the items an iteration over [v] yields. *)
Fixpoint chars (s : string) : list PyVal :=
  match s with
  | EmptyString => []
  | String c s' => PyStr (String c "") :: chars s'
  end.

Definition py_iter (v : PyVal) : Result (list PyVal) :=
  match v with
  | PyTuple items | PyList items => Ok items
  | PyStr s => Ok (chars s)
  | _ => Raise TypeError
  end.

(** [v > 1] *)
Definition py_gt_one (v : PyVal) : Result bool :=
  match v with
  | PyInt n => Ok (1 <? n)%Z
  | PyFloat x => Ok (SFltb (float_of_int 1) x)
  | _ => Raise TypeError
  end.

(** ['{:.2f}'.format(v)] *)
Definition format_2f (v : PyVal) : Result string :=
  match v with
  | PyFloat x => Ok (format_f 2 x)
  | PyInt n =>
      match float_of_int n with
      | S754_infinity _ => Raise OverflowError
      | x => Ok (format_f 2 x)
      end
  | PyStr _ => Raise ValueError
  | _ => Raise TypeError
  end.

End Py.

(* ===================================================================== *)
(** * ext/commands/errors.py *)
(* ===================================================================== *)

Module Errors.
Import Py.

(** ** The classes *)

Inductive Kind : Set :=
| CommandError
| UserInputError
| CommandNotFound
| MissingRequiredArgument
| TooManyArguments
| BadArgument
| CheckFailure
| CheckAnyFailure
| PrivateMessageOnly
| PartyMessageOnly
| NotOwner
| DisabledCommand
| CommandInvokeError
| CommandOnCooldown
| MaxConcurrencyReached
| ConversionError
| BadUnionArgument
| ArgumentParsingError
| UnexpectedQuoteError
| InvalidEndOfQuotedStringError
| ExpectedClosingQuoteError
| ExtensionError
| ExtensionAlreadyLoaded
| ExtensionNotLoaded
| ExtensionMissingEntryPoint
| ExtensionFailed
| ExtensionNotFound.

#[export] Instance Kind_eq_dec : EqDecision Kind.
Proof. solve_decision. Defined.

Definition all_kinds : list Kind :=
  [ CommandError; UserInputError; CommandNotFound; MissingRequiredArgument;
    TooManyArguments; BadArgument; CheckFailure; CheckAnyFailure;
    PrivateMessageOnly; PartyMessageOnly; NotOwner; DisabledCommand;
    CommandInvokeError; CommandOnCooldown; MaxConcurrencyReached;
    ConversionError; BadUnionArgument; ArgumentParsingError;
    UnexpectedQuoteError; InvalidEndOfQuotedStringError;
    ExpectedClosingQuoteError; ExtensionError; ExtensionAlreadyLoaded;
    ExtensionNotLoaded; ExtensionMissingEntryPoint; ExtensionFailed;
    ExtensionNotFound ].

(** The base named in each [class] statement; [None] stands for
    [FortniteException], the root both families hang from. *)
Definition base (k : Kind) : option Kind :=
  match k with
  | CommandError => None
  | UserInputError => Some CommandError
  | CommandNotFound => Some CommandError
  | MissingRequiredArgument => Some UserInputError
  | TooManyArguments => Some UserInputError
  | BadArgument => Some UserInputError
  | CheckFailure => Some UserInputError
  | CheckAnyFailure => Some CheckFailure
  | PrivateMessageOnly => Some CheckFailure
  | PartyMessageOnly => Some CheckFailure
  | NotOwner => Some CheckFailure
  | DisabledCommand => Some CommandError
  | CommandInvokeError => Some CommandError
  | CommandOnCooldown => Some CommandError
  | MaxConcurrencyReached => Some CommandError
  | ConversionError => Some CommandError
  | BadUnionArgument => Some UserInputError
  | ArgumentParsingError => Some UserInputError
  | UnexpectedQuoteError => Some ArgumentParsingError
  | InvalidEndOfQuotedStringError => Some ArgumentParsingError
  | ExpectedClosingQuoteError => Some ArgumentParsingError
  | ExtensionError => None
  | ExtensionAlreadyLoaded => Some ExtensionError
  | ExtensionNotLoaded => Some ExtensionError
  | ExtensionMissingEntryPoint => Some ExtensionError
  | ExtensionFailed => Some ExtensionError
  | ExtensionNotFound => Some ExtensionError
  end.

(** The class followed by its bases, nearest first. *)
Fixpoint mro_from (fuel : nat) (k : Kind) : list Kind :=
  k :: match fuel, base k with
       | S fuel', Some b => mro_from fuel' b
       | _, _ => []
       end.

Definition mro (k : Kind) : list Kind := mro_from (length all_kinds) k.

Definition issubclass (k ancestor : Kind) : bool :=
  bool_decide (ancestor ∈ mro k).

(** The branches of the taxonomy a handler can select with one
    [except] clause. *)
Definition is_user_input_failure (k : Kind) : bool := issubclass k UserInputError.
Definition is_permission_failure (k : Kind) : bool := issubclass k CheckFailure.

(** ** Instances *)

(** An exception object: its class, the [args] tuple every exception
    carries, and the attributes assigned in [__init__]. *)
Record Instance : Type := {
  cls : Kind;
  args : list PyVal;
  dict : gmap string PyVal
}.

(** [BaseException.__new__] keeps the positional arguments of the call. *)
Definition BaseException_new (k : Kind) (posargs : list PyVal) : Instance :=
  {| cls := k; args := posargs; dict := ∅ |}.

(** [BaseException.__init__] replaces them by its own. *)
Definition BaseException_init (self : Instance) (args : list PyVal) : Instance :=
  {| cls := cls self; args := args; dict := dict self |}.

(** [BaseException.__str__] *)
Definition BaseException_str (self : Instance) : string :=
  match args self with
  | [] => ""
  | [a] => py_str a
  | items => py_str (PyTuple items)
  end.

(** Modelled from the spec: [FortniteException] is defined in
    [fortnitepy/errors.py], which is not among the modelled files. The
    specification gives every error kind a human-readable message and
    nothing more at this level, so the class is taken as a plain subclass
    of [Exception] that adds nothing of its own. *)
Definition FortniteException_init (self : Instance) (args : list PyVal)
    : Instance :=
  BaseException_init self args.

(** [self.<attr> = v] and [self.<attr>] *)
Definition setattr (self : Instance) (attr : string) (v : PyVal) : Instance :=
  {| cls := cls self; args := args self; dict := <[attr := v]> (dict self) |}.

Definition attr (self : Instance) (name : string) : option PyVal :=
  dict self !! name.

(** The human-readable message of an error: [str(e)]. *)
Definition message (e : Instance) : string := BaseException_str e.

(** ** The [__init__] methods *)

Definition CommandError_init (self : Instance) (message : PyVal)
    (args : list PyVal) : Instance :=
  if negb (is_none message)
  then FortniteException_init self (message :: args)
  else FortniteException_init self args.

Definition MissingRequiredArgument_init (self : Instance) (param : PyVal)
    : Result Instance :=
  let self := setattr self "param" param in
  name ← getattr param "name";
  mret (CommandError_init self
          (PyStr (name +:+ " is a required argument that is missing.")) []).

Definition CheckAnyFailure_init (self : Instance) (checks errors : PyVal)
    : Result Instance :=
  let self := setattr self "checks" checks in
  let self := setattr self "errors" errors in
  mret (CommandError_init self
          (PyStr "You do not have permission to run this command.") []).

Definition PrivateMessageOnly_init (self : Instance) (message : PyVal)
    : Result Instance :=
  mret (CommandError_init self
          (py_or message
             (PyStr "This command can only be used in private messages."))
          []).

Definition PartyMessageOnly_init (self : Instance) (message : PyVal)
    : Result Instance :=
  mret (CommandError_init self
          (py_or message
             (PyStr "This command can only be used in party messages."))
          []).

Definition CommandInvokeError_init (self : Instance) (e : PyVal)
    : Result Instance :=
  let self := setattr self "original" e in
  mret (CommandError_init self
          (PyStr ("Command raised an exception: " +:+ class_name e +:+ ": "
                  +:+ py_str e)) []).

Definition CommandOnCooldown_init (self : Instance)
    (cooldown retry_after : PyVal) : Result Instance :=
  let self := setattr self "cooldown" cooldown in
  let self := setattr self "retry_after" retry_after in
  seconds ← format_2f retry_after;
  mret (CommandError_init self
          (PyStr ("You are on cooldown. Try again in " +:+ seconds +:+ "s"))
          []).

Definition MaxConcurrencyReached_init (self : Instance) (number per : PyVal)
    : Result Instance :=
  let self := setattr self "number" number in
  let self := setattr self "per" per in
  name ← getattr per "name";
  let suffix := if negb (String.eqb name "default")
                then "per " +:+ name else "globally" in
  many ← py_gt_one number;
  let fmt := if (many : bool)
             then py_str number +:+ " times " +:+ suffix
             else py_str number +:+ " time " +:+ suffix in
  mret (CommandError_init self
          (PyStr ("Too many people using this command. It can only be used "
                  +:+ fmt +:+ " concurrently.")) []).

(** [ConversionError.__init__] stores its arguments and calls nothing. *)
Definition ConversionError_init (self : Instance) (converter original : PyVal)
    : Result Instance :=
  let self := setattr self "converter" converter in
  let self := setattr self "original" original in
  mret self.

(** The local [_get_name]: the [__name__] of [x], or the name of its class
    when it has none. *)
Definition _get_name (x : PyVal) : string :=
  match getattr x "__name__" with
  | Ok n => n
  | Raise _ => class_name x
  end.

Definition BadUnionArgument_init (self : Instance)
    (param converters errors : PyVal) : Result Instance :=
  let self := setattr self "param" param in
  let self := setattr self "converters" converters in
  let self := setattr self "errors" errors in
  items ← py_iter converters;
  let to_string := map _get_name items in
  let fmt := if (2 <? length to_string)%nat
             then join ", " (removelast to_string) +:+ ", or "
                  +:+ List.last to_string ""
             else join " or " to_string in
  name ← getattr param "name";
  mret (CommandError_init self
          (PyStr ("Could not convert " +:+ String dquote name +:+
                  String dquote " into " +:+ fmt +:+ ".")) []).

Definition UnexpectedQuoteError_init (self : Instance) (quote : PyVal)
    : Result Instance :=
  let self := setattr self "quote" quote in
  mret (CommandError_init self
          (PyStr ("Unexpected quote mark, " +:+ py_repr quote +:+
                  ", in non-quoted string")) []).

Definition InvalidEndOfQuotedStringError_init (self : Instance) (char : PyVal)
    : Result Instance :=
  let self := setattr self "char" char in
  mret (CommandError_init self
          (PyStr ("Expected space after closing quotation but received "
                  +:+ py_repr char)) []).

Definition ExpectedClosingQuoteError_init (self : Instance)
    (close_quote : PyVal) : Result Instance :=
  let self := setattr self "close_quote" close_quote in
  mret (CommandError_init self
          (PyStr ("Expected closing " +:+ py_str close_quote +:+ ".")) []).

Definition ExtensionError_init (self : Instance) (message : PyVal)
    (args : list PyVal) (name : PyVal) : Result Instance :=
  let self := setattr self "name" name in
  let message :=
    py_or message (PyStr ("Extension " +:+ py_repr name +:+ " had an error.")) in
  mret (FortniteException_init self (message :: args)).

Definition ExtensionAlreadyLoaded_init (self : Instance) (name : PyVal)
    : Result Instance :=
  ExtensionError_init self
    (PyStr ("Extension " +:+ py_repr name +:+ " is already loaded.")) [] name.

Definition ExtensionNotLoaded_init (self : Instance) (name : PyVal)
    : Result Instance :=
  ExtensionError_init self
    (PyStr ("Extension " +:+ py_repr name +:+ " has not been loaded.")) [] name.

Definition ExtensionMissingEntryPoint_init (self : Instance) (name : PyVal)
    : Result Instance :=
  ExtensionError_init self
    (PyStr ("Extension " +:+ py_repr name +:+ " has no 'setup' function."))
    [] name.

Definition ExtensionFailed_init (self : Instance) (name original : PyVal)
    : Result Instance :=
  let self := setattr self "original" original in
  ExtensionError_init self
    (PyStr ("Extension " +:+ py_repr name +:+ " raised an error: " +:+
            class_name original +:+ ": " +:+ py_str original)) [] name.

Definition ExtensionNotFound_init (self : Instance) (name : PyVal)
    : Result Instance :=
  ExtensionError_init self
    (PyStr ("Extension " +:+ py_repr name +:+ " could not be loaded.")) [] name.

(** ** Calling a class *)

(** The classes whose body has a [def __init__]. *)
Definition defines_init (k : Kind) : bool :=
  match k with
  | UserInputError | CommandNotFound | TooManyArguments | BadArgument
  | CheckFailure | NotOwner | DisabledCommand | ArgumentParsingError => false
  | _ => true
  end.

(** The class whose [__init__] runs for an instance of [k]. *)
Definition resolve_init (k : Kind) : option Kind :=
  head (filter (fun c => defines_init c = true) (mro k)).

(** Binding the arguments of a call to the parameters of the [__init__] of
    class [c] and running it. A call is made of positional arguments and,
    possibly, the keyword argument [name]; a call that does not fit the
    signature is a [TypeError]. *)
Definition call_init (c : Kind) (self : Instance) (posargs : list PyVal)
    (name : option PyVal) : Result Instance :=
  match c, posargs, name with
  | CommandError, [], None => mret (CommandError_init self PyNone [])
  | CommandError, message :: args, None =>
      mret (CommandError_init self message args)
  | MissingRequiredArgument, [param], None =>
      MissingRequiredArgument_init self param
  | CheckAnyFailure, [checks; errors], None =>
      CheckAnyFailure_init self checks errors
  | PrivateMessageOnly, [], None => PrivateMessageOnly_init self PyNone
  | PrivateMessageOnly, [message], None => PrivateMessageOnly_init self message
  | PartyMessageOnly, [], None => PartyMessageOnly_init self PyNone
  | PartyMessageOnly, [message], None => PartyMessageOnly_init self message
  | CommandInvokeError, [e], None => CommandInvokeError_init self e
  | CommandOnCooldown, [cooldown; retry_after], None =>
      CommandOnCooldown_init self cooldown retry_after
  | MaxConcurrencyReached, [number; per], None =>
      MaxConcurrencyReached_init self number per
  | ConversionError, [converter; original], None =>
      ConversionError_init self converter original
  | BadUnionArgument, [param; converters; errors], None =>
      BadUnionArgument_init self param converters errors
  | UnexpectedQuoteError, [quote], None => UnexpectedQuoteError_init self quote
  | InvalidEndOfQuotedStringError, [char], None =>
      InvalidEndOfQuotedStringError_init self char
  | ExpectedClosingQuoteError, [close_quote], None =>
      ExpectedClosingQuoteError_init self close_quote
  | ExtensionError, [], Some n => ExtensionError_init self PyNone [] n
  | ExtensionError, message :: args, Some n =>
      ExtensionError_init self message args n
  | ExtensionAlreadyLoaded, [n], None
  | ExtensionAlreadyLoaded, [], Some n => ExtensionAlreadyLoaded_init self n
  | ExtensionNotLoaded, [n], None
  | ExtensionNotLoaded, [], Some n => ExtensionNotLoaded_init self n
  | ExtensionMissingEntryPoint, [n], None
  | ExtensionMissingEntryPoint, [], Some n =>
      ExtensionMissingEntryPoint_init self n
  | ExtensionFailed, [n; original], None => ExtensionFailed_init self n original
  | ExtensionNotFound, [n], None
  | ExtensionNotFound, [], Some n => ExtensionNotFound_init self n
  | _, _, _ => Raise TypeError
  end.

(** Calling class [k] with the positional arguments [posargs] and, when
    [name] is given, the keyword argument [name]: the new instance, or the
    exception that escapes the constructor. *)
Definition construct (k : Kind) (posargs : list PyVal) (name : option PyVal)
    : Result Instance :=
  match resolve_init k with
  | Some c => call_init c (BaseException_new k posargs) posargs name
  | None => mret (BaseException_new k posargs)
  end.

(** The message of the instance a call gives. *)
Definition message_of (r : Result Instance) : Result string :=
  e ← r; mret (message e).

End Errors.

(* ===================================================================== *)
(** * Sample values and the vocabulary of the properties *)
(* ===================================================================== *)

Module Samples.
Import Message Py Errors.

(** A party message whose collaborators are plain numbers: client 0,
    party 1, author 7, received when the clock showed 1000. *)
Definition party_message : PartyMessage nat nat nat :=
  fst (PartyMessage_init (Friend := nat) 0%nat 1%nat 7%nat "gg"
         {| clock := 1000; sent := [] |}).

(** An instance of some class, with the given attributes. *)
Definition object (class : string) (attrs : list (string * string))
    (text : string) : Obj :=
  {| obj_class := class; obj_attrs := list_to_map attrs;
     obj_str := text; obj_repr := "<" +:+ class +:+ " object>";
     obj_bool := true |}.

Definition instance (class : string) (attrs : list (string * string))
    (text : string) : PyVal :=
  PyObj (object class attrs text).

(** A class object, as a converter annotation such as [int] is. *)
Definition type_object (name : string) : PyVal :=
  PyObj {| obj_class := "type"; obj_attrs := {[ "__name__" := name ]};
           obj_str := "<class '" +:+ name +:+ "'>";
           obj_repr := "<class '" +:+ name +:+ "'>";
           obj_bool := true |}.

(** A member of the [BucketType] enumeration. *)
Definition bucket_object (name : string) : Obj :=
  object "BucketType" [("name", name)] ("BucketType." +:+ name).
Definition bucket (name : string) : PyVal := PyObj (bucket_object name).

(** An [inspect.Parameter]. *)
Definition parameter_object (name : string) : Obj :=
  object "Parameter" [("name", name)] name.
Definition parameter (name : string) : PyVal := PyObj (parameter_object name).

Definition cooldown : PyVal := instance "Cooldown" [] "<Cooldown>".

(** [ValueError("bad")] *)
Definition value_error : PyVal := instance "ValueError" [] "bad".

(** The float the literal [1.005] denotes: the binary64 number nearest to
    1005/1000, which lies just below it. *)
Definition float_1_005 : float :=
  SFdiv prec emax (float_of_int 1005) (float_of_int 1000).


End Samples.

(* ===================================================================== *)
(** * Vocabulary of the specification *)
(* ===================================================================== *)

Module Spec.
Import Py Errors.

(** ** Payload types, after the annotations of the constructors *)

Definition is_str (v : PyVal) : bool :=
  match v with PyStr _ => true | _ => false end.
Definition optional_str (v : PyVal) : bool :=
  match v with PyNone | PyStr _ => true | _ => false end.
Definition is_int (v : PyVal) : bool :=
  match v with PyInt _ => true | _ => false end.
Definition is_float (v : PyVal) : bool :=
  match v with PyFloat _ => true | _ => false end.
Definition is_list (v : PyVal) : bool :=
  match v with PyList _ => true | _ => false end.
Definition is_tuple (v : PyVal) : bool :=
  match v with PyTuple _ => true | _ => false end.
Definition is_object (v : PyVal) : bool :=
  match v with PyObj _ => true | _ => false end.
(** [inspect.Parameter] and [BucketType]: objects with a [name]. *)
Definition is_named (v : PyVal) : bool :=
  match v with
  | PyObj o => bool_decide (is_Some (obj_attrs o !! "name"))
  | _ => false
  end.

(** A call whose arguments have the annotated types. *)
Definition well_typed (k : Kind) (posargs : list PyVal) (name : option PyVal)
    : bool :=
  match resolve_init k, posargs, name with
  | Some CommandError, [], None => true
  | Some CommandError, message :: _, None => optional_str message
  | Some MissingRequiredArgument, [param], None => is_named param
  | Some CheckAnyFailure, [checks; errors], None =>
      is_list checks && is_list errors
  | Some PrivateMessageOnly, [], None
  | Some PartyMessageOnly, [], None => true
  | Some PrivateMessageOnly, [message], None
  | Some PartyMessageOnly, [message], None => optional_str message
  | Some CommandInvokeError, [e], None => is_object e
  | Some CommandOnCooldown, [cooldown; retry_after], None =>
      is_object cooldown && is_float retry_after
  | Some MaxConcurrencyReached, [number; per], None =>
      is_int number && is_named per
  | Some ConversionError, [converter; original], None =>
      is_object converter && is_object original
  | Some BadUnionArgument, [param; converters; errors], None =>
      is_named param && is_tuple converters && is_list errors
  | Some UnexpectedQuoteError, [x], None
  | Some InvalidEndOfQuotedStringError, [x], None
  | Some ExpectedClosingQuoteError, [x], None => is_str x
  | Some ExtensionError, [], Some n => is_str n
  | Some ExtensionError, message :: _, Some n =>
      optional_str message && is_str n
  | Some ExtensionAlreadyLoaded, [n], None
  | Some ExtensionAlreadyLoaded, [], Some n
  | Some ExtensionNotLoaded, [n], None
  | Some ExtensionNotLoaded, [], Some n
  | Some ExtensionMissingEntryPoint, [n], None
  | Some ExtensionMissingEntryPoint, [], Some n
  | Some ExtensionNotFound, [n], None
  | Some ExtensionNotFound, [], Some n => is_str n
  | Some ExtensionFailed, [n; original], None => is_str n && is_object original
  | _, _, _ => false
  end.

(** The kinds that take no payload: their classes have an empty body and
    construction goes straight to [CommandError.__init__]. *)
Definition payload_free (k : Kind) : bool :=
  match k with
  | CommandError | UserInputError | CommandNotFound | TooManyArguments
  | BadArgument | CheckFailure | NotOwner | DisabledCommand
  | ArgumentParsingError => true
  | _ => false
  end.

(** The attribute each positional argument of the constructor is kept
    under, in the order of the parameters. *)
Definition payload_fields (k : Kind) : list string :=
  match k with
  | MissingRequiredArgument => ["param"]
  | CheckAnyFailure => ["checks"; "errors"]
  | CommandInvokeError => ["original"]
  | CommandOnCooldown => ["cooldown"; "retry_after"]
  | MaxConcurrencyReached => ["number"; "per"]
  | ConversionError => ["converter"; "original"]
  | BadUnionArgument => ["param"; "converters"; "errors"]
  | UnexpectedQuoteError => ["quote"]
  | InvalidEndOfQuotedStringError => ["char"]
  | ExpectedClosingQuoteError => ["close_quote"]
  | ExtensionAlreadyLoaded | ExtensionNotLoaded | ExtensionMissingEntryPoint
  | ExtensionNotFound => ["name"]
  | ExtensionFailed => ["name"; "original"]
  | _ => []
  end.

(** How many positional arguments a call without keyword must bring. *)
Definition required_arguments (k : Kind) : nat :=
  length (payload_fields k).

(** ** Rendering *)

Definition is_digit (c : ascii) : bool :=
  let n := N_of_ascii c in (48 <=? n)%N && (n <=? 57)%N.

Fixpoint all_digits (s : string) : bool :=
  match s with
  | EmptyString => true
  | String c s' => is_digit c && all_digits s'
  end.

(** A number written with exactly two fractional digits: an optional
    minus sign, at least one digit, a point, two digits. *)
Definition two_fractional_digits (s : string) : Prop :=
  exists (sign whole : string) (d1 d2 : ascii),
    s = sign +:+ whole +:+ "." +:+ String d1 (String d2 "")
    /\ (sign = "" \/ sign = "-")
    /\ whole <> "" /\ all_digits whole = true
    /\ is_digit d1 = true /\ is_digit d2 = true.

Definition is_finite (x : float) : bool :=
  match x with
  | S754_zero _ | S754_finite _ _ _ => true
  | _ => false
  end.

(** The display name of a converter: the name it declares when it is a
    named type, the name of its class otherwise. *)
Definition display_name (converter : PyVal) : string :=
  match converter with
  | PyObj o => default (obj_class o) (obj_attrs o !! "__name__")
  | v => class_name v
  end.

(** Three names or more: commas between them and [", or "] before the
    last. [series x rest] lists [x] followed by [rest]. *)
Fixpoint series (x : string) (rest : list string) : string :=
  match rest with
  | [] => x
  | [y] => x +:+ ", or " +:+ y
  | y :: rest' => x +:+ ", " +:+ series y rest'
  end.

(** The listing of the converters in the message. *)
Definition listing (names : list string) : string :=
  match names with
  | [] => ""
  | [a] => a
  | [a; b] => a +:+ " or " +:+ b
  | a :: rest => series a rest
  end.

End Spec.

(* ===================================================================== *)
(** * The rest of message.py, and names for what the files show *)
(* ===================================================================== *)

Module MessageRepr.
Import Message.

Section Repr.

(** [repr] of the collaborators and of a [datetime], whatever they are. *)
Variables Client Friend PartyMember ClientParty : Type.
Variable repr_friend : Friend -> string.
Variable repr_member : PartyMember -> string.
Variable repr_party : ClientParty -> string.
Variable repr_datetime : datetime -> string.

(** [FriendMessage.__repr__] *)
Definition FriendMessage_repr (self : FriendMessage Client Friend) : string :=
  "<FriendMessage author=" +:+ repr_friend (author self)
  +:+ " created_at=" +:+ repr_datetime (created_at self) +:+ ">".

(** [PartyMessage.__repr__] *)
Definition PartyMessage_repr
    (self : PartyMessage Client PartyMember ClientParty) : string :=
  "<PartyMessage party=" +:+ repr_party (party self)
  +:+ " author=" +:+ repr_member (author (base self))
  +:+ " created_at=" +:+ repr_datetime (created_at (base self)) +:+ ">".

End Repr.

Arguments FriendMessage_repr {Client Friend} repr_friend repr_datetime self.
Arguments PartyMessage_repr {Client PartyMember ClientParty}
  repr_member repr_party repr_datetime self.

(** Where the reply to a message goes. *)
Definition reply_target {Client Friend PartyMember ClientParty : Type}
    (m : AnyMessage Client Friend PartyMember ClientParty)
    : Recipient Friend PartyMember ClientParty :=
  match m with
  | Direct m => ToFriend (author m)
  | Group m => ToParty (party m)
  end.

End MessageRepr.

Module Taxonomy.
Import Py Errors Spec.

(** The classes an [except UserInputError] clause selects. *)
Definition user_input_kinds : list Kind :=
  [ UserInputError; MissingRequiredArgument; TooManyArguments; BadArgument;
    CheckFailure; CheckAnyFailure; PrivateMessageOnly; PartyMessageOnly;
    NotOwner; BadUnionArgument; ArgumentParsingError; UnexpectedQuoteError;
    InvalidEndOfQuotedStringError; ExpectedClosingQuoteError ].

(** The classes whose [__init__] formats one message and hands it, alone,
    to the constructor of the base. *)
Definition formats_message (k : Kind) : bool :=
  match k with
  | MissingRequiredArgument | CheckAnyFailure | CommandInvokeError
  | CommandOnCooldown | MaxConcurrencyReached | BadUnionArgument
  | UnexpectedQuoteError | InvalidEndOfQuotedStringError
  | ExpectedClosingQuoteError | ExtensionAlreadyLoaded | ExtensionNotLoaded
  | ExtensionMissingEntryPoint | ExtensionFailed | ExtensionNotFound => true
  | _ => false
  end.

(** The classes whose [__init__] stores and renders its arguments without
    reading anything from them that could be missing. *)
Definition payload_blind (k : Kind) : bool :=
  match k with
  | CheckAnyFailure | CommandInvokeError | ConversionError
  | UnexpectedQuoteError | InvalidEndOfQuotedStringError
  | ExpectedClosingQuoteError | ExtensionAlreadyLoaded | ExtensionNotLoaded
  | ExtensionMissingEntryPoint | ExtensionFailed | ExtensionNotFound => true
  | _ => false
  end.

(** The one-parameter classes of the extension family. *)
Definition names_extension_only (k : Kind) : bool :=
  match k with
  | ExtensionAlreadyLoaded | ExtensionNotLoaded | ExtensionMissingEntryPoint
  | ExtensionNotFound => true
  | _ => false
  end.

(** Values a comprehension can iterate over. *)
Definition is_iterable (v : PyVal) : bool :=
  match v with
  | PyTuple _ | PyList _ | PyStr _ => true
  | _ => false
  end.

(** Values [> 1] is defined on. *)
Definition is_number (v : PyVal) : bool :=
  match v with
  | PyInt _ | PyFloat _ => true
  | _ => false
  end.

(** [s] occurs in [text]. *)
Definition occurs_in (s text : string) : Prop :=
  exists before after, text = before +:+ s +:+ after.

(** Every character of [s] is printable. *)
Fixpoint all_printable (s : string) : bool :=
  match s with
  | EmptyString => true
  | String c s' => printable c && all_printable s'
  end.

(** The classes that show a one-string payload through [{!r}]. *)
Definition quotes_payload (k : Kind) : bool :=
  match k with
  | UnexpectedQuoteError | InvalidEndOfQuotedStringError
  | ExtensionAlreadyLoaded | ExtensionNotLoaded | ExtensionMissingEntryPoint
  | ExtensionNotFound => true
  | _ => false
  end.

End Taxonomy.

(* ===================================================================== *)
(** * Properties of the message entities *)
(* ===================================================================== *)

Module MessageFacts.
Import Message.

Section Facts.

Variables Client Friend PartyMember ClientParty Sent : Type.
Variable transport :
  SendCall Friend PartyMember ClientParty ->
  list (SendCall Friend PartyMember ClientParty) -> Sent.

Lemma calls_made_send_to (r : Recipient Friend PartyMember ClientParty)
    (content : string) (w : World Friend PartyMember ClientParty) :
  calls_made (send_to transport r content) w
  = [{| recipient := r; payload := content |}].
Proof.
  unfold calls_made, send_to. simpl.
  rewrite drop_app_length. reflexivity.
Qed.

(** C1. Reply routing follows the variant. Replying to a direct message
    makes exactly one call, [Friend.send] of the author with the content;
    replying to a group message makes exactly one call,
    [ClientParty.send] of the party with the content, and no call
    addressed to the author. In both cases the earlier log is kept and
    the reply returns what the primitive returned. *)
Theorem reply_routing (w : World Friend PartyMember ClientParty)
    (content : string) :
  (forall m : FriendMessage Client Friend,
     let call := {| recipient := ToFriend (author m); payload := content |} in
     sent (snd (reply transport (Direct m) content w)) = (sent w ++ [call])%list
     /\ calls_made (reply transport (Direct m) content) w = [call]
     /\ fst (reply transport (Direct m) content w) = transport call (sent w))
  /\
  (forall m : PartyMessage Client PartyMember ClientParty,
     let call := {| recipient := ToParty (party m); payload := content |} in
     sent (snd (reply transport (Group m) content w)) = (sent w ++ [call])%list
     /\ calls_made (reply transport (Group m) content) w = [call]
     /\ Forall (fun c => recipient c <> ToMember (author (base m)))
          (calls_made (reply transport (Group m) content) w)
     /\ fst (reply transport (Group m) content w) = transport call (sent w)).
Proof.
  split; intros m call.
  - repeat split.
    apply calls_made_send_to.
  - assert (Hcalls : calls_made (reply transport (Group m) content) w = [call])
      by apply calls_made_send_to.
    repeat split; [exact Hcalls |].
    rewrite Hcalls. constructor; [| constructor].
    simpl. discriminate.
Qed.

(** C7, as amended. The four accessors of a message have no setter:
    assigning to [client], [author], [content] or [created_at] raises
    [AttributeError], for both variants. Construction stores its
    arguments and reads the clock once; [created_at] gives that reading
    whenever it is read afterwards. The [party] of a group message is a
    plain attribute: assigning to it succeeds and replaces the party. *)
Theorem accessors_read_only
    (w : World Friend PartyMember ClientParty)
    (c : Client) (f : Friend) (pm : PartyMember) (p : ClientParty)
    (text : string) :
  let fm := fst (FriendMessage_init c f text w) in
  let gm := fst (PartyMessage_init c p pm text w) in
  (client fm = c /\ author fm = f /\ content fm = text
   /\ client (base gm) = c /\ author (base gm) = pm
   /\ content (base gm) = text /\ party gm = p)
  /\ (created_at fm = clock w /\ created_at (base gm) = clock w
      /\ forall w1 w2 : World Friend PartyMember ClientParty,
           fst (ret (created_at fm) w1) = clock w
           /\ fst (ret (created_at fm) w2) = clock w
           /\ fst (ret (created_at (base gm)) w1) = clock w
           /\ fst (ret (created_at (base gm)) w2) = clock w)
  /\ (forall (m : FriendMessage Client Friend) c' f' s' t',
        FriendMessage_setattr (ClientParty := ClientParty) m (set_client c')
          = AttributeError "client"
        /\ FriendMessage_setattr (ClientParty := ClientParty) m (set_author f')
          = AttributeError "author"
        /\ FriendMessage_setattr (ClientParty := ClientParty) m (set_content s')
          = AttributeError "content"
        /\ FriendMessage_setattr (ClientParty := ClientParty) m
             (set_created_at t')
          = AttributeError "created_at")
  /\ (forall (m : PartyMessage Client PartyMember ClientParty) c' a' s' t' p',
        PartyMessage_setattr m (set_client c') = AttributeError "client"
        /\ PartyMessage_setattr m (set_author a') = AttributeError "author"
        /\ PartyMessage_setattr m (set_content s') = AttributeError "content"
        /\ PartyMessage_setattr m (set_created_at t')
            = AttributeError "created_at"
        /\ PartyMessage_setattr m (set_party p')
            = Done {| base := base m; party := p' |}).
Proof.
  intros fm gm. repeat split.
Qed.

End Facts.

(** C7, as stated, fails on the group variant: the party reference is not
    read-only. Assigning party 2 to a message received from party 1
    succeeds and the message then reports party 2. *)
Lemma party_reference_is_assignable :
  exists m',
    PartyMessage_setattr Samples.party_message (set_party 2%nat) = Done m'
    /\ party Samples.party_message = 1%nat
    /\ party m' = 2%nat.
Proof.
  eexists. repeat split.
Qed.

End MessageFacts.

(* ===================================================================== *)
(** * Properties of the error taxonomy *)
(* ===================================================================== *)

Module ErrorFacts.
Import Py Errors Spec.

(** ** The hierarchy *)

(** The fuel of [mro] is enough: every chain of bases ends in a class whose
    base is the root. *)
Lemma mro_reaches_root (k : Kind) :
  exists top, List.last (mro k) k = top /\ base top = None.
Proof.
  destruct k; eexists; split; reflexivity.
Qed.

Lemma resolve_init_defined (k : Kind) : is_Some (resolve_init k).
Proof.
  destruct k; eexists; reflexivity.
Qed.

(** C8. The class statement reads [class CheckFailure(UserInputError)], so
    [CheckFailure] and its four descendants are permission failures and
    user-input failures at once: an [except UserInputError] clause catches
    them. The docstring of the class names [CommandError] as its base. *)
Theorem check_failures_are_user_input_failures :
  base CheckFailure = Some UserInputError
  /\ Forall (fun k => is_permission_failure k = true
                      /\ is_user_input_failure k = true)
       [CheckFailure; CheckAnyFailure; PrivateMessageOnly; PartyMessageOnly;
        NotOwner].
Proof.
  split; [reflexivity |].
  repeat constructor.
Qed.

(** Kinds are told apart by their class alone, and the permission branch
    holds exactly the five classes above. *)
Lemma kinds_distinguishable (e1 e2 : Instance) :
  {cls e1 = cls e2} + {cls e1 <> cls e2}.
Proof. apply Kind_eq_dec. Qed.

Lemma permission_branch (k : Kind) :
  is_permission_failure k = true <->
  k ∈ [CheckFailure; CheckAnyFailure; PrivateMessageOnly; PartyMessageOnly;
       NotOwner].
Proof.
  split.
  - destruct k; vm_compute; intros H; try discriminate H;
      repeat first [ apply list_elem_of_here | apply list_elem_of_further ].
  - intros H. repeat (apply elem_of_cons in H as [-> | H]; [reflexivity |]).
    apply elem_of_nil in H. destruct H.
Qed.

(** ** The runtime on a few values *)

Lemma str_repr_samples :
  str_repr "foo" = "'foo'"
  /\ str_repr "it's" = String dquote "it's" +:+ String dquote ""
  /\ py_repr (PyTuple [PyInt (-3); PyStr "a"; PyNone; PyList [PyTuple [PyInt 1]]])
     = "(-3, 'a', None, [(1,)])".
Proof. repeat split. Qed.

Lemma float_samples :
  float_repr Samples.float_1_005 = "1.005"
  /\ float_repr (float_of_int 3) = "3.0"
  /\ float_repr (float_of_int (10 ^ 22)) = "1e+22"
  /\ format_f 2 (float_of_int 3) = "3.00"
  /\ format_f 2 (S754_finite true 1 (-10)) = "-0.00"
  /\ format_f 2 (S754_finite false 1 (-3)) = "0.12"
  /\ format_f 2 (S754_finite false 3 (-3)) = "0.38".
Proof. repeat split; vm_compute; reflexivity. Qed.

(** ** Strings *)

Lemma append_cons (x : ascii) (a b : string) :
  String x a +:+ b = String x (a +:+ b).
Proof. reflexivity. Qed.

Lemma append_assoc (a b c : string) : (a +:+ b) +:+ c = a +:+ b +:+ c.
Proof.
  induction a as [| x a IH]; [reflexivity |].
  rewrite !append_cons, IH. reflexivity.
Qed.

Lemma append_nonempty (a b : string) : a <> "" -> a +:+ b <> "".
Proof.
  destruct a; [congruence |]. rewrite append_cons. discriminate.
Qed.

Lemma endswith_refl (s : string) : endswith s s = true.
Proof.
  destruct s; simpl; try rewrite bool_decide_eq_true_2 by reflexivity;
    reflexivity.
Qed.

Lemma endswith_append (prefix suffix : string) :
  endswith (prefix +:+ suffix) suffix = true.
Proof.
  induction prefix as [| c prefix IH].
  - apply endswith_refl.
  - rewrite append_cons. simpl. rewrite IH. apply orb_true_r.
Qed.

(** ** MaxConcurrencyReached *)

(** C3, as amended. For every count [n] and every bucket, the message of
    [MaxConcurrencyReached(n, bucket)] is the fixed opening, the count,
    [" times "] when [n > 1] and [" time "] otherwise, then ["globally"]
    when the name of the bucket is ["default"] and ["per <name>"]
    otherwise, and the fixed ending [" concurrently."]. *)
Theorem max_concurrency_message (n : Z) (per : Obj) (name : string) :
  obj_attrs per !! "name" = Some name ->
  message_of (construct MaxConcurrencyReached [PyInt n; PyObj per] None)
  = Ok ("Too many people using this command. It can only be used "
        +:+ pretty n
        +:+ (if decide (1 < n)%Z then " times " else " time ")
        +:+ (if decide (name = "default") then "globally" else "per " +:+ name)
        +:+ " concurrently.").
Proof.
  intros Hname.
  unfold construct, message_of. simpl.
  unfold MaxConcurrencyReached_init. simpl. rewrite Hname. simpl.
  unfold message, BaseException_str. simpl.
  do 2 f_equal.
  assert (Hsuffix :
    (if negb (String.eqb name "default") then "per " +:+ name else "globally")
    = (if decide (name = "default") then "globally" else "per " +:+ name)).
  { destruct (String.eqb_spec name "default") as [-> | Hne]; simpl.
    - reflexivity.
    - destruct (decide (name = "default")); [contradiction | reflexivity]. }
  rewrite Hsuffix.
  destruct (Z.ltb_spec 1 n) as [Hlt | Hge];
    destruct (decide (1 < n)%Z); try lia;
    rewrite !append_assoc; reflexivity.
Qed.

Lemma max_concurrency_one_default :
  obj_attrs (Samples.bucket_object "default") !! "name" = Some "default"
  /\ message_of (construct MaxConcurrencyReached
                   [PyInt 1; PyObj (Samples.bucket_object "default")] None)
     = Ok ("Too many people using this command. It can only be used "
           +:+ pretty 1%Z
           +:+ (if decide (1 < 1)%Z then " times " else " time ")
           +:+ (if decide ("default" = "default")
                then "globally" else "per " +:+ "default")
           +:+ " concurrently.").
Proof.
  split; [reflexivity |].
  apply (max_concurrency_message 1 (Samples.bucket_object "default") "default").
  reflexivity.
Defined.

(** The two renderings the specification quotes, in full. *)
Lemma max_concurrency_renderings :
  message_of (construct MaxConcurrencyReached
                [PyInt 1; Samples.bucket "default"] None)
  = Ok ("Too many people using this command. It can only be used "
        +:+ "1 time globally concurrently.")
  /\ message_of (construct MaxConcurrencyReached
                   [PyInt 3; Samples.bucket "user"] None)
     = Ok ("Too many people using this command. It can only be used "
           +:+ "3 times per user concurrently.").
Proof. split; vm_compute; reflexivity. Qed.

(** C3, as stated, fails on its own example: the message of
    [MaxConcurrencyReached(1, default)] does not end in
    ["used 1 time globally."]; the word [concurrently] closes it. *)
Lemma max_concurrency_not_as_quoted :
  exists text,
    message_of (construct MaxConcurrencyReached
                  [PyInt 1; Samples.bucket "default"] None) = Ok text
    /\ ~ (exists prefix, text = prefix +:+ "used 1 time globally.").
Proof.
  eexists. split; [vm_compute; reflexivity |].
  intros [prefix H].
  pose proof (endswith_append prefix "used 1 time globally.") as Hends.
  rewrite <- H in Hends. vm_compute in Hends. discriminate Hends.
Qed.

(** ** BadUnionArgument *)

Lemma get_name_display (x : PyVal) : _get_name x = display_name x.
Proof.
  destruct x; try reflexivity.
  unfold _get_name, display_name, getattr.
  destruct (obj_attrs o !! "__name__"); reflexivity.
Qed.

Lemma join_series (x : string) (rest : list string) :
  rest <> [] ->
  join ", " (removelast (x :: rest)) +:+ ", or " +:+ List.last (x :: rest) ""
  = series x rest.
Proof.
  revert x. induction rest as [| y rest IH]; intros x Hne; [congruence |].
  destruct rest as [| z rest].
  - reflexivity.
  - specialize (IH y ltac:(discriminate)).
    change (removelast (x :: y :: z :: rest))
      with (x :: removelast (y :: z :: rest)).
    change (List.last (x :: y :: z :: rest) "")
      with (List.last (y :: z :: rest) "").
    change (series x (y :: z :: rest)) with (x +:+ ", " +:+ series y (z :: rest)).
    rewrite <- IH.
    change (removelast (y :: z :: rest)) with (y :: removelast (z :: rest)).
    change (join ", " (x :: y :: removelast (z :: rest)))
      with (x +:+ ", " +:+ join ", " (y :: removelast (z :: rest))).
    rewrite !append_assoc. reflexivity.
Qed.

(** C4. The message of [BadUnionArgument] names each converter by its
    declared name, or by the name of its class when it declares none, and
    lists the names: one name alone, two names joined by [" or "], three
    or more separated by [", "] with [", or "] before the last. *)
Theorem bad_union_message (param : Obj) (pname : string)
    (converters : list PyVal) (errors : PyVal) :
  obj_attrs param !! "name" = Some pname ->
  converters <> [] ->
  message_of (construct BadUnionArgument
                [PyObj param; PyTuple converters; errors] None)
  = Ok ("Could not convert " +:+ String dquote pname +:+ String dquote " into "
        +:+ listing (map display_name converters) +:+ ".").
Proof.
  intros Hname _.
  unfold construct, message_of. simpl.
  unfold BadUnionArgument_init. simpl. rewrite Hname. simpl.
  unfold message, BaseException_str. simpl.
  do 2 f_equal.
  rewrite (map_ext _ _ get_name_display).
  destruct converters as [| a [| b [| c rest]]]; try reflexivity.
  change (map display_name (a :: b :: c :: rest))
    with (display_name a :: display_name b :: display_name c
          :: map display_name rest).
  change (2 <? length (display_name a :: display_name b :: display_name c
                       :: map display_name rest))%nat with true.
  cbv iota.
  rewrite (join_series (display_name a)) by discriminate.
  reflexivity.
Qed.

Lemma bad_union_two :
  obj_attrs (Samples.parameter_object "target") !! "name" = Some "target"
  /\ [Samples.type_object "TypeA"; Samples.type_object "TypeB"] <> []
  /\ message_of (construct BadUnionArgument
                   [PyObj (Samples.parameter_object "target");
                    PyTuple [Samples.type_object "TypeA";
                             Samples.type_object "TypeB"];
                    PyList []] None)
     = Ok ("Could not convert " +:+ String dquote "target" +:+ String dquote
           " into "
           +:+ listing (map display_name [Samples.type_object "TypeA";
                                          Samples.type_object "TypeB"])
           +:+ ".").
Proof.
  split; [reflexivity |]. split; [discriminate |].
  apply (bad_union_message (Samples.parameter_object "target") "target").
  - reflexivity.
  - discriminate.
Defined.

(** The renderings the specification quotes, in full: two converters given
    as types, then three, the second one an instance. *)
Lemma bad_union_renderings :
  message_of (construct BadUnionArgument
                [Samples.parameter "target";
                 PyTuple [Samples.type_object "TypeA";
                          Samples.type_object "TypeB"];
                 PyList []] None)
  = Ok ("Could not convert " +:+ String dquote "target" +:+ String dquote
        " into TypeA or TypeB.")
  /\ message_of (construct BadUnionArgument
                   [Samples.parameter "target";
                    PyTuple [Samples.type_object "TypeA";
                             Samples.instance "TypeB" [] "";
                             Samples.type_object "TypeC"];
                    PyList []] None)
     = Ok ("Could not convert " +:+ String dquote "target" +:+ String dquote
           " into TypeA, TypeB, or TypeC.").
Proof. split; vm_compute; reflexivity. Qed.

(** ** CommandOnCooldown *)





Lemma magnitude_nonnegative (m : positive) (e : Z) : (0 <= magnitude m e)%Q.
Proof.
  unfold magnitude. apply Qmult_le_0_compat.
  - unfold Qle. simpl. lia.
  - apply Qpower_0_le. unfold Qle. simpl. lia.
Qed.

Lemma round_half_even_nonnegative (q : Q) :
  (0 <= q)%Q -> (0 <= round_half_even q)%Z.
Proof.
  intros Hq.
  assert (Hfloor : (0 <= Qfloor q)%Z).
  { change 0%Z with (Qfloor 0). apply Qfloor_resp_le. exact Hq. }
  unfold round_half_even.
  destruct (q - inject_Z (Qfloor q) ?= 1 # 2)%Q; [destruct (Z.even _) | |]; lia.
Qed.





(** The literal [1.005] is the float [4526117625507348 * 2 ^ -52], and its
    message in full. *)
Lemma cooldown_text_1_005 :
  Samples.float_1_005 = S754_finite false 4526117625507348 (-52)
  /\ message_of (construct CommandOnCooldown
                   [Samples.cooldown; PyFloat Samples.float_1_005] None)
     = Ok "You are on cooldown. Try again in 1.00s".
Proof. split; vm_compute; reflexivity. Qed.



(** ** Optional message overrides *)

(** C10. For the kinds with an optional message override, any falsy
    override, the empty string among them, gives the message an absent
    override gives: the default text of the kind. *)
Theorem falsy_override_gives_default (override name : PyVal) :
  py_bool override = false ->
  (message_of (construct PrivateMessageOnly [override] None)
   = message_of (construct PrivateMessageOnly [] None)
   /\ message_of (construct PrivateMessageOnly [] None)
      = Ok "This command can only be used in private messages.")
  /\ (message_of (construct PartyMessageOnly [override] None)
      = message_of (construct PartyMessageOnly [] None)
      /\ message_of (construct PartyMessageOnly [] None)
         = Ok "This command can only be used in party messages.")
  /\ (message_of (construct ExtensionError [override] (Some name))
      = message_of (construct ExtensionError [] (Some name))
      /\ message_of (construct ExtensionError [] (Some name))
         = Ok ("Extension " +:+ py_repr name +:+ " had an error.")).
Proof.
  intros Hfalsy.
  unfold construct, message_of. simpl.
  unfold PrivateMessageOnly_init, PartyMessageOnly_init, ExtensionError_init,
    py_or.
  rewrite Hfalsy. simpl.
  repeat split.
Qed.

Lemma empty_override_gives_default :
  py_bool (PyStr "") = false
  /\ (message_of (construct PrivateMessageOnly [PyStr ""] None)
      = message_of (construct PrivateMessageOnly [] None)
      /\ message_of (construct PrivateMessageOnly [] None)
         = Ok "This command can only be used in private messages.")
  /\ (message_of (construct PartyMessageOnly [PyStr ""] None)
      = message_of (construct PartyMessageOnly [] None)
      /\ message_of (construct PartyMessageOnly [] None)
         = Ok "This command can only be used in party messages.")
  /\ (message_of (construct ExtensionError [PyStr ""] (Some (PyStr "cogs.music")))
      = message_of (construct ExtensionError [] (Some (PyStr "cogs.music")))
      /\ message_of (construct ExtensionError [] (Some (PyStr "cogs.music")))
         = Ok ("Extension " +:+ py_repr (PyStr "cogs.music") +:+ " had an error.")).
Proof.
  split; [reflexivity |].
  apply (falsy_override_gives_default (PyStr "") (PyStr "cogs.music")).
  reflexivity.
Defined.

Lemma extension_error_default_text :
  message_of (construct ExtensionError [PyStr ""] (Some (PyStr "cogs.music")))
  = Ok "Extension 'cogs.music' had an error.".
Proof. vm_compute. reflexivity. Qed.

(** ** Construction *)

(** Replace [resolve_init k], for a given class [k], by its value. *)
Ltac eval_resolve :=
  repeat match goal with
  | |- context [resolve_init ?k] =>
      let r := eval vm_compute in (resolve_init k) in
      change (resolve_init k) with r
  | H : context [resolve_init ?k] |- _ =>
      let r := eval vm_compute in (resolve_init k) in
      change (resolve_init k) with r in H
  end.

(** Split a list of arguments into the shapes the signatures tell apart. *)
Ltac split_arguments posargs :=
  let a := fresh "a" in
  let b := fresh "b" in
  let c := fresh "c" in
  let d := fresh "d" in
  let rest := fresh "rest" in
  destruct posargs as [| a [| b [| c [| d rest]]]].

(** Run the binds of a constructor that returned. *)
Ltac run_binds H :=
  repeat match type of H with
  | context [getattr ?v ?n] =>
      let E := fresh "Hattr" in
      destruct (getattr v n) eqn:E; simpl in H; try discriminate H
  | context [format_2f ?v] =>
      let E := fresh "Hformat" in
      destruct (format_2f v) eqn:E; simpl in H; try discriminate H
  | context [py_gt_one ?v] =>
      let E := fresh "Hgt" in
      destruct (py_gt_one v) eqn:E; simpl in H; try discriminate H
  | context [py_iter ?v] =>
      let E := fresh "Hiter" in
      destruct (py_iter v) eqn:E; simpl in H; try discriminate H
  end.

Ltac unfold_inits :=
  unfold MissingRequiredArgument_init, CheckAnyFailure_init,
    PrivateMessageOnly_init, PartyMessageOnly_init, CommandInvokeError_init,
    CommandOnCooldown_init, MaxConcurrencyReached_init, ConversionError_init,
    BadUnionArgument_init, UnexpectedQuoteError_init,
    InvalidEndOfQuotedStringError_init, ExpectedClosingQuoteError_init,
    ExtensionAlreadyLoaded_init, ExtensionNotLoaded_init,
    ExtensionMissingEntryPoint_init, ExtensionFailed_init,
    ExtensionNotFound_init, ExtensionError_init in *.

Lemma attr_CommandError_init (self : Instance) (message : PyVal)
    (args : list PyVal) (name : string) :
  attr (CommandError_init self message args) name = attr self name.
Proof.
  unfold CommandError_init. destruct (negb (is_none message)); reflexivity.
Qed.

Lemma attr_FortniteException_init (self : Instance) (args : list PyVal)
    (name : string) :
  attr (FortniteException_init self args) name = attr self name.
Proof. reflexivity. Qed.

Lemma attr_setattr (self : Instance) (field name : string) (v : PyVal) :
  attr (setattr self field v) name
  = if decide (field = name) then Some v else attr self name.
Proof.
  unfold attr, setattr. simpl. apply lookup_insert.
Qed.


Lemma append_nonempty_r (a b : string) : b <> "" -> a +:+ b <> "".
Proof.
  destruct a; [intros H; exact H |]. rewrite append_cons. discriminate.
Qed.

Lemma cls_CommandError_init (self : Instance) (message : PyVal)
    (args : list PyVal) :
  cls (CommandError_init self message args) = cls self.
Proof.
  unfold CommandError_init. destruct (negb (is_none message)); reflexivity.
Qed.

(** Use what [well_typed] says about each argument. *)
Ltac use_types H :=
  repeat
    (match type of H with
     | context [bool_decide (is_Some (obj_attrs ?o !! ?n))] =>
         let E := fresh "Hname" in
         destruct (obj_attrs o !! n) eqn:E;
         [ rewrite bool_decide_eq_true_2 in H by (eexists; reflexivity)
         | rewrite bool_decide_eq_false_2 in H by (intros [? ?]; discriminate) ]
     | context [is_named ?v] => destruct v
     | context [is_str ?v] => destruct v
     | context [optional_str ?v] => destruct v
     | context [is_int ?v] => destruct v
     | context [is_float ?v] => destruct v
     | context [is_list ?v] => destruct v
     | context [is_tuple ?v] => destruct v
     | context [is_object ?v] => destruct v
     end;
     simpl in H; try discriminate H).

Ltac nonempty :=
  unfold message, BaseException_str, CommandError_init,
    FortniteException_init, BaseException_init, py_or; simpl;
  repeat match goal with
  | |- context [negb (bool_decide (?s = ""))] => destruct s; simpl
  end;
  first [ discriminate
        | apply append_nonempty; discriminate
        | apply append_nonempty_r; discriminate ].

(** C2, as amended. A call with a well-typed payload always returns an
    instance of the class called, and the message depends on the arguments
    alone. The message is not empty for every kind that takes a payload or
    brings a default text; the nine kinds with an empty class body have the
    empty message when they are called without arguments, and the text
    they are given when they are called with one. *)
Theorem construction_succeeds (k : Kind) (posargs : list PyVal)
    (name : option PyVal) :
  well_typed k posargs name = true ->
  exists e,
    construct k posargs name = Ok e
    /\ cls e = k
    /\ (forall e', construct k posargs name = Ok e' -> message e' = message e)
    /\ (payload_free k = false -> message e <> "")
    /\ (payload_free k = true -> posargs = [] -> message e = "")
    /\ (payload_free k = true ->
        forall text, posargs = [PyStr text] -> message e = text).
Proof.
  intros Htyped. unfold well_typed in Htyped. unfold construct.
  destruct k; eval_resolve; unfold call_init;
    split_arguments posargs; destruct name as [n |];
    simpl in Htyped; try discriminate Htyped;
    use_types Htyped;
    unfold_inits; simpl; rewrite ?Hname, ?Hname0; simpl;
    (eexists; split; [reflexivity |];
     split; [rewrite ?cls_CommandError_init; reflexivity |];
     split; [intros e' He'; injection He' as <-; reflexivity |];
     split; [intros Hfree; try discriminate Hfree; nonempty |];
     split;
     [ intros Hfree Hnil; try discriminate Hfree; try discriminate Hnil;
       reflexivity
     | intros Hfree text Hone; try discriminate Hfree;
       try discriminate Hone; injection Hone as <-; reflexivity ]).
Qed.

Lemma construction_succeeds_sample :
  well_typed ExtensionFailed [PyStr "foo"; Samples.value_error] None = true
  /\ exists e,
       construct ExtensionFailed [PyStr "foo"; Samples.value_error] None = Ok e
       /\ cls e = ExtensionFailed
       /\ (forall e',
             construct ExtensionFailed [PyStr "foo"; Samples.value_error] None
             = Ok e' -> message e' = message e)
       /\ (payload_free ExtensionFailed = false -> message e <> "")
       /\ (payload_free ExtensionFailed = true ->
           [PyStr "foo"; Samples.value_error] = [] -> message e = "")
       /\ (payload_free ExtensionFailed = true ->
           forall text,
             [PyStr "foo"; Samples.value_error] = [PyStr text] ->
             message e = text).
Proof.
  split; [reflexivity |].
  apply (construction_succeeds ExtensionFailed
           [PyStr "foo"; Samples.value_error] None).
  reflexivity.
Defined.

Lemma extension_failed_text :
  message_of (construct ExtensionFailed [PyStr "foo"; Samples.value_error] None)
  = Ok "Extension 'foo' raised an error: ValueError: bad".
Proof. vm_compute. reflexivity. Qed.

(** C2, as stated, fails: [CommandNotFound()], whose payload is none, is
    well typed and constructs, and its message is the empty string. *)
Lemma command_not_found_message_is_empty :
  well_typed CommandNotFound [] None = true
  /\ message_of (construct CommandNotFound [] None) = Ok "".
Proof. split; reflexivity. Qed.

(** ** Payload round trip *)


(** Every kind has well-typed calls, so the round trip below speaks of
    each of them. *)
Lemma every_kind_has_a_well_typed_call (k : Kind) :
  exists posargs name, well_typed k posargs name = true.
Proof.
  destruct k;
    first
      [ exists [], None; reflexivity
      | exists [Samples.parameter "target"], None; reflexivity
      | exists [PyList []; PyList []], None; reflexivity
      | exists [Samples.value_error], None; reflexivity
      | exists [Samples.cooldown; PyFloat Samples.float_1_005], None;
        reflexivity
      | exists [PyInt 3; Samples.bucket "user"], None; reflexivity
      | exists [Samples.cooldown; Samples.value_error], None; reflexivity
      | exists [Samples.parameter "target"; PyTuple []; PyList []], None;
        reflexivity
      | exists [PyStr "'"], None; reflexivity
      | exists [], (Some (PyStr "cogs.music")); reflexivity
      | exists [PyStr "cogs.music"; Samples.value_error], None; reflexivity ].
Qed.



(** The payload of the sample, read back field by field. *)
Lemma payload_read_back_sample :
  exists e,
    construct BadUnionArgument
      [Samples.parameter "target";
       PyTuple [Samples.type_object "TypeA"; Samples.type_object "TypeB"];
       PyList [Samples.value_error]] None = Ok e
    /\ attr e "param" = Some (Samples.parameter "target")
    /\ attr e "converters"
       = Some (PyTuple [Samples.type_object "TypeA";
                        Samples.type_object "TypeB"])
    /\ attr e "errors" = Some (PyList [Samples.value_error]).
Proof. eexists. repeat split. Qed.

(** ** Missing and null payloads *)

(** C6, as amended. A call that leaves out a required argument raises
    [TypeError] before any instance exists: too few positional arguments
    for any kind, no [name] for [ExtensionError]. A null is refused where
    the constructor reads the payload in order to format it. A null
    extension name is not refused: the instance is built and its message
    shows [None]. *)
Theorem missing_payload_fails_fast :
  (forall (k : Kind) (posargs : list PyVal),
     (length posargs < required_arguments k)%nat ->
     construct k posargs None = Raise TypeError)
  /\ (forall posargs : list PyVal,
        construct ExtensionError posargs None = Raise TypeError)
  /\ (construct MissingRequiredArgument [PyNone] None = Raise AttributeError
      /\ (forall converters errors,
            construct BadUnionArgument [PyNone; PyTuple converters; errors] None
            = Raise AttributeError)
      /\ (forall number,
            construct MaxConcurrencyReached [number; PyNone] None
            = Raise AttributeError)
      /\ (forall cooldown,
            construct CommandOnCooldown [cooldown; PyNone] None
            = Raise TypeError))
  /\ (message_of (construct ExtensionError [] (Some PyNone))
      = Ok "Extension None had an error."
      /\ message_of (construct ExtensionAlreadyLoaded [PyNone] None)
         = Ok "Extension None is already loaded."
      /\ message_of (construct ExtensionNotLoaded [PyNone] None)
         = Ok "Extension None has not been loaded."
      /\ message_of (construct ExtensionMissingEntryPoint [PyNone] None)
         = Ok "Extension None has no 'setup' function."
      /\ message_of (construct ExtensionNotFound [PyNone] None)
         = Ok "Extension None could not be loaded."
      /\ (forall original,
            message_of (construct ExtensionFailed [PyNone; original] None)
            = Ok ("Extension None raised an error: " +:+ class_name original
                  +:+ ": " +:+ py_str original))).
Proof.
  split; [| split; [| split]].
  - intros k posargs Hfew. unfold construct.
    destruct k; eval_resolve; unfold call_init;
      split_arguments posargs; unfold required_arguments in Hfew;
      simpl in Hfew; try lia; reflexivity.
  - intros posargs. destruct posargs; reflexivity.
  - repeat split.
  - repeat split.
Qed.

Lemma missing_payload_sample :
  (length [Samples.parameter "target"] < required_arguments BadUnionArgument)%nat
  /\ construct BadUnionArgument [Samples.parameter "target"] None
     = Raise TypeError.
Proof.
  split; [vm_compute; lia |].
  apply (proj1 missing_payload_fails_fast). vm_compute. lia.
Defined.

(** C6, as stated, fails on its own example: with a null extension name
    the constructor returns an instance, whose [name] is [None]. *)
Lemma null_extension_name_accepted :
  exists e,
    construct ExtensionError [] (Some PyNone) = Ok e
    /\ attr e "name" = Some PyNone
    /\ message e = "Extension None had an error.".
Proof.
  eexists. repeat split.
Qed.

End ErrorFacts.

(* ===================================================================== *)
(** * Further properties of the message entities *)
(* ===================================================================== *)

Module MessageLaws.
Import Message MessageRepr.

Section Laws.

Variables Client Friend PartyMember ClientParty Sent : Type.
Variable transport :
  SendCall Friend PartyMember ClientParty ->
  list (SendCall Friend PartyMember ClientParty) -> Sent.
Variable repr_friend : Friend -> string.
Variable repr_member : PartyMember -> string.
Variable repr_party : ClientParty -> string.
Variable repr_datetime : datetime -> string.

Lemma reply_runs (m : AnyMessage Client Friend PartyMember ClientParty)
    (content : string) (w : World Friend PartyMember ClientParty) :
  reply transport m content w
  = (transport {| recipient := reply_target m; payload := content |} (sent w),
     {| clock := clock w;
        sent := (sent w
                 ++ [{| recipient := reply_target m; payload := content |}])%list
     |}).
Proof. destruct m; reflexivity. Qed.

(** X1. Two replies awaited one after the other reach the transport in
    that order, each through the channel of its own message; the second
    send is decided with the first already in the log, and the clock is
    not touched. *)
Theorem replies_in_order
    (m1 m2 : AnyMessage Client Friend PartyMember ClientParty)
    (c1 c2 : string) (w : World Friend PartyMember ClientParty) :
  let call1 := {| recipient := reply_target m1; payload := c1 |} in
  let call2 := {| recipient := reply_target m2; payload := c2 |} in
  let both :=
    bind (reply transport m1 c1) (fun r1 =>
    bind (reply transport m2 c2) (fun r2 => ret (r1, r2))) in
  fst (both w)
  = (transport call1 (sent w), transport call2 (sent w ++ [call1])%list)
  /\ sent (snd (both w)) = (sent w ++ [call1; call2])%list
  /\ clock (snd (both w)) = clock w.
Proof.
  intros call1 call2 both. unfold both, bind.
  rewrite (reply_runs m1 c1 w). fold call1.
  rewrite reply_runs. fold call2. simpl.
  repeat split.
  rewrite <- app_assoc. reflexivity.
Qed.

(** X2. What a reply and the accessors report follows the slots as they
    are now. After [msg.party = p] a group reply goes to [p]; after
    [msg._author = f] a direct reply goes to [f]; after
    [msg._created_at = t] the accessor [created_at] returns [t]. The other
    fields keep their values. *)
Theorem replies_follow_assignments
    (fm : FriendMessage Client Friend)
    (gm : PartyMessage Client PartyMember ClientParty)
    (p : ClientParty) (f : Friend) (t : datetime) (content : string)
    (w : World Friend PartyMember ClientParty) :
  (exists gm',
     PartyMessage_setattr gm (set_party p) = Done gm'
     /\ base gm' = base gm
     /\ calls_made (reply transport (Group gm') content) w
        = [{| recipient := ToParty p; payload := content |}])
  /\ (exists fm',
        FriendMessage_setattr (ClientParty := ClientParty) fm (set__author f)
        = Done fm'
        /\ client fm' = client fm
        /\ Message.content fm' = Message.content fm
        /\ created_at fm' = created_at fm
        /\ calls_made (reply transport (Direct fm') content) w
           = [{| recipient := ToFriend f; payload := content |}])
  /\ (exists fm',
        FriendMessage_setattr (ClientParty := ClientParty) fm
          (set__created_at t) = Done fm'
        /\ created_at fm' = t
        /\ client fm' = client fm /\ author fm' = author fm
        /\ Message.content fm' = Message.content fm).
Proof.
  split; [| split]; eexists; (split; [reflexivity |]).
  - split; [reflexivity |].
    apply (MessageFacts.calls_made_send_to Friend PartyMember ClientParty Sent).
  - repeat split.
    apply (MessageFacts.calls_made_send_to Friend PartyMember ClientParty Sent).
  - repeat split.
Qed.

(** X3. The [repr] of a direct message is never the [repr] of a group
    message, whatever the collaborators print; and the [repr] of a message
    shows neither its content nor its client. *)
Theorem repr_tells_variants_apart
    (fm : FriendMessage Client Friend)
    (gm : PartyMessage Client PartyMember ClientParty) :
  FriendMessage_repr repr_friend repr_datetime fm
  <> PartyMessage_repr repr_member repr_party repr_datetime gm
  /\ (forall (c : Client) (s : string),
        FriendMessage_repr repr_friend repr_datetime
          {| _client := c; _author := author fm; _content := s;
             _created_at := created_at fm |}
        = FriendMessage_repr repr_friend repr_datetime fm)
  /\ (forall (c : Client) (s : string),
        PartyMessage_repr repr_member repr_party repr_datetime
          {| base := {| _client := c; _author := author (base gm);
                        _content := s;
                        _created_at := created_at (base gm) |};
             party := party gm |}
        = PartyMessage_repr repr_member repr_party repr_datetime gm).
Proof.
  split; [| split; intros; reflexivity].
  unfold FriendMessage_repr, PartyMessage_repr.
  change ("<FriendMessage author=" +:+ ?x)
    with (String "<" (String "F" ("riendMessage author=" +:+ x))).
  change ("<PartyMessage party=" +:+ ?y)
    with (String "<" (String "P" ("artyMessage party=" +:+ y))).
  discriminate.
Qed.

End Laws.

End MessageLaws.

(* ===================================================================== *)
(** * Further properties of the error taxonomy *)
(* ===================================================================== *)

Module ErrorLaws.
Import Py Errors Spec Taxonomy ErrorFacts.

(** ** Classes and instances *)

Lemma every_kind_listed (k : Kind) : k ∈ all_kinds.
Proof.
  destruct k; unfold all_kinds;
    repeat first [ apply list_elem_of_here | apply list_elem_of_further ].
Qed.

Lemma cls_setattr (self : Instance) (field : string) (v : PyVal) :
  cls (setattr self field v) = cls self.
Proof. reflexivity. Qed.

(** X4. A constructor that returns gives an instance of the class that
    was called, and that class belongs to exactly one of the two
    families: a handler for [CommandError] never receives an extension
    error, a handler for [ExtensionError] never receives a command
    error. *)
Theorem instance_of_called_class (k : Kind) (posargs : list PyVal)
    (name : option PyVal) (e : Instance) :
  construct k posargs name = Ok e ->
  cls e = k
  /\ issubclass (cls e) CommandError = negb (issubclass (cls e) ExtensionError).
Proof.
  intros Hmake.
  assert (Hcls : cls e = k).
  { unfold construct in Hmake.
    destruct k; eval_resolve; unfold call_init in Hmake;
      split_arguments posargs; destruct name as [n |];
      try discriminate Hmake;
      unfold_inits; simpl in Hmake; run_binds Hmake;
      injection Hmake as <-;
      rewrite ?cls_CommandError_init; reflexivity. }
  split; [exact Hcls |].
  rewrite Hcls. destruct k; reflexivity.
Qed.

Lemma instance_of_called_class_sample :
  exists e,
    construct NotOwner [PyStr "not yours"] None = Ok e
    /\ cls e = NotOwner
    /\ issubclass (cls e) CommandError
       = negb (issubclass (cls e) ExtensionError).
Proof.
  eexists. split; [vm_compute; reflexivity |].
  apply (instance_of_called_class NotOwner [PyStr "not yours"] None).
  vm_compute. reflexivity.
Defined.

(** X5. The classes an [except UserInputError] clause selects are the
    fourteen of [user_input_kinds], the check failures among them;
    [CommandNotFound], [DisabledCommand], [CommandInvokeError],
    [CommandOnCooldown], [MaxConcurrencyReached], [ConversionError] and the
    extension family are not selected. *)
Theorem user_input_branch (k : Kind) :
  is_user_input_failure k = true <-> k ∈ user_input_kinds.
Proof.
  split.
  - destruct k; vm_compute; intros H; try discriminate H;
      repeat first [ apply list_elem_of_here | apply list_elem_of_further ].
  - intros H. unfold user_input_kinds in H.
    repeat (apply elem_of_cons in H as [-> | H]; [reflexivity |]).
    apply elem_of_nil in H. destruct H.
Qed.

(** X6. [issubclass] is a partial order on the classes: every class is a
    subclass of itself, a subclass of a subclass is a subclass, and two
    classes that are subclasses of each other are the same class. *)
Theorem issubclass_partial_order :
  (forall a, issubclass a a = true)
  /\ (forall a b c,
        issubclass a b = true -> issubclass b c = true ->
        issubclass a c = true)
  /\ (forall a b,
        issubclass a b = true -> issubclass b a = true -> a = b).
Proof.
  split; [| split].
  - intros a. destruct a; reflexivity.
  - intros a b c Hab Hbc.
    destruct a, b; try (vm_compute in Hab; discriminate Hab);
      destruct c; try (vm_compute in Hbc; discriminate Hbc); reflexivity.
  - intros a b Hab Hba.
    destruct a, b; try reflexivity;
      try (vm_compute in Hab; discriminate Hab);
      vm_compute in Hba; discriminate Hba.
Qed.

Lemma issubclass_sample :
  issubclass UnexpectedQuoteError ArgumentParsingError = true
  /\ issubclass ArgumentParsingError CommandError = true
  /\ issubclass UnexpectedQuoteError CommandError = true.
Proof.
  split; [reflexivity |]. split; [reflexivity |].
  apply (proj1 (proj2 issubclass_partial_order)
           UnexpectedQuoteError ArgumentParsingError CommandError);
    reflexivity.
Defined.

(** ** What an instance holds *)

(** X7. Every class that formats a message hands the base constructor
    that one string and nothing else: on the instance, [args] is the
    one-element tuple holding the message, whatever the payload was. *)
Theorem args_hold_the_message (k : Kind) (posargs : list PyVal)
    (name : option PyVal) (e : Instance) :
  formats_message k = true ->
  construct k posargs name = Ok e ->
  args e = [PyStr (message e)].
Proof.
  intros Hformats Hmake. unfold construct in Hmake.
  destruct k; try discriminate Hformats; eval_resolve;
    unfold call_init in Hmake;
    split_arguments posargs; destruct name as [n |];
    try discriminate Hmake;
    unfold_inits; simpl in Hmake; run_binds Hmake;
    injection Hmake as <-;
    unfold py_or; simpl;
    try rewrite bool_decide_eq_false_2
      by (apply append_nonempty; discriminate);
    reflexivity.
Qed.

Lemma args_hold_the_message_sample :
  formats_message CommandInvokeError = true
  /\ exists e,
       construct CommandInvokeError [Samples.value_error] None = Ok e
       /\ args e = [PyStr (message e)].
Proof.
  split; [reflexivity |].
  eexists. split; [vm_compute; reflexivity |].
  apply (args_hold_the_message CommandInvokeError [Samples.value_error] None).
  - reflexivity.
  - vm_compute. reflexivity.
Defined.

(** X8. [ConversionError] never reaches the constructor of its base: its
    [args] stay the two arguments of the call, both are also kept as
    attributes, and its message is their rendering as a pair. *)
Theorem conversion_error_keeps_arguments (converter original : PyVal) :
  exists e,
    construct ConversionError [converter; original] None = Ok e
    /\ args e = [converter; original]
    /\ attr e "converter" = Some converter
    /\ attr e "original" = Some original
    /\ message e
       = "(" +:+ py_repr converter +:+ ", " +:+ py_repr original +:+ ")".
Proof.
  eexists. split; [reflexivity |]. repeat split.
  unfold message, BaseException_str. simpl.
  rewrite !append_assoc. reflexivity.
Qed.

(** X9. The nine classes with an empty body take any arguments, keep no
    attribute, and end with [args] equal to the positional arguments of
    the call less a leading [None]: a message that is [None] is dropped,
    any other message, the empty string too, is kept. *)
Theorem empty_classes_keep_arguments (k : Kind) (posargs : list PyVal) :
  payload_free k = true ->
  exists e,
    construct k posargs None = Ok e
    /\ cls e = k
    /\ dict e = ∅
    /\ args e = match posargs with
                | PyNone :: rest => rest
                | _ => posargs
                end.
Proof.
  intros Hfree. unfold construct.
  destruct k; try discriminate Hfree; eval_resolve; unfold call_init;
    (destruct posargs as [| message rest];
     [ eexists; repeat split
     | destruct message; eexists; repeat split ]).
Qed.

Lemma empty_classes_keep_arguments_sample :
  payload_free CommandNotFound = true
  /\ exists e,
       construct CommandNotFound [PyNone; PyStr "left"] None = Ok e
       /\ cls e = CommandNotFound
       /\ dict e = ∅
       /\ args e = [PyStr "left"].
Proof.
  split; [reflexivity |].
  apply (empty_classes_keep_arguments CommandNotFound [PyNone; PyStr "left"]).
  reflexivity.
Defined.

Lemma is_Some_attr_setattr (self : Instance) (field name : string) (v : PyVal) :
  is_Some (attr (setattr self field v) name)
  <-> field = name \/ is_Some (attr self name).
Proof.
  rewrite attr_setattr. destruct (decide (field = name)) as [-> | Hne].
  - split; [left; reflexivity | intros _; eexists; reflexivity].
  - split; [right; assumption | intros [? | ?]; [contradiction | assumption]].
Qed.

Lemma is_Some_attr_new (k : Kind) (posargs : list PyVal) (name : string) :
  is_Some (attr (BaseException_new k posargs) name) <-> False.
Proof.
  unfold attr, BaseException_new. simpl. rewrite lookup_empty.
  split; [intros [? ?]; discriminate | contradiction].
Qed.

(** X10. An instance holds the attributes of its payload and no other:
    the attributes that can be read on it are exactly the fields of its
    kind, plus [name] on a plain [ExtensionError]. *)
Theorem attributes_are_the_payload (k : Kind) (posargs : list PyVal)
    (name : option PyVal) (e : Instance) (field : string) :
  construct k posargs name = Ok e ->
  is_Some (attr e field)
  <-> (field ∈ payload_fields k \/ (k = ExtensionError /\ field = "name")).
Proof.
  intros Hmake. unfold construct in Hmake.
  destruct k; eval_resolve; unfold call_init in Hmake;
    split_arguments posargs; destruct name as [n |];
    try discriminate Hmake;
    unfold_inits; simpl in Hmake; run_binds Hmake;
    injection Hmake as <-;
    rewrite ?attr_CommandError_init, ?attr_FortniteException_init;
    rewrite ?is_Some_attr_setattr, is_Some_attr_new;
    unfold payload_fields;
    rewrite ?elem_of_cons, elem_of_nil;
    intuition congruence.
Qed.

Lemma attributes_are_the_payload_sample :
  exists e,
    construct CommandOnCooldown
      [Samples.cooldown; PyFloat Samples.float_1_005] None = Ok e
    /\ (is_Some (attr e "message")
        <-> ("message" ∈ payload_fields CommandOnCooldown
             \/ (CommandOnCooldown = ExtensionError /\ "message" = "name"))).
Proof.
  eexists. split; [vm_compute; reflexivity |].
  apply (attributes_are_the_payload CommandOnCooldown
           [Samples.cooldown; PyFloat Samples.float_1_005] None).
  vm_compute. reflexivity.
Defined.

(** X11. Eleven classes never look inside their payload: called with as
    many positional arguments as they have parameters, they return an
    instance whatever the arguments are, [None] included. *)
Theorem blind_constructors_never_fail (k : Kind) (posargs : list PyVal) :
  payload_blind k = true ->
  length posargs = required_arguments k ->
  exists e, construct k posargs None = Ok e.
Proof.
  intros Hblind Hlen. unfold construct.
  destruct k; try discriminate Hblind; eval_resolve; unfold call_init;
    split_arguments posargs; try discriminate Hlen;
    eexists; reflexivity.
Qed.

Lemma blind_constructors_never_fail_sample :
  payload_blind UnexpectedQuoteError = true
  /\ length [PyNone] = required_arguments UnexpectedQuoteError
  /\ exists e, construct UnexpectedQuoteError [PyNone] None = Ok e.
Proof.
  split; [reflexivity |]. split; [reflexivity |].
  apply (blind_constructors_never_fail UnexpectedQuoteError [PyNone]);
    reflexivity.
Defined.

(** ** When construction fails *)

Lemma is_named_getattr (v : PyVal) :
  match getattr v "name" with
  | Ok _ => is_named v = true
  | Raise err => err = AttributeError /\ is_named v = false
  end.
Proof.
  destruct v; simpl; try (split; reflexivity).
  destruct (obj_attrs o !! "name") eqn:Hn; simpl.
  - first [ reflexivity
          | apply bool_decide_eq_true_2; eexists; reflexivity ].
  - split; [reflexivity |].
    first [ reflexivity
          | apply bool_decide_eq_false_2; intros [? ?]; discriminate ].
Qed.

(** X12. [MaxConcurrencyReached(number, per)] reads the name of the
    bucket first and compares the count afterwards: it raises
    [AttributeError] exactly when the bucket has no name, whatever the
    count is, raises [TypeError] exactly when the bucket has a name and the
    count is not a number, and returns otherwise. *)
Theorem max_concurrency_failures (number per : PyVal) :
  match construct MaxConcurrencyReached [number; per] None with
  | Ok _ => is_named per = true /\ is_number number = true
  | Raise AttributeError => is_named per = false
  | Raise TypeError => is_named per = true /\ is_number number = false
  | Raise _ => False
  end.
Proof.
  unfold construct. eval_resolve. unfold call_init, MaxConcurrencyReached_init.
  pose proof (is_named_getattr per) as Hper.
  destruct (getattr per "name") as [n | err]; simpl.
  - destruct number; simpl; split; (exact Hper || reflexivity).
  - destruct Hper as [-> Hper]. exact Hper.
Qed.

(** X13. [MissingRequiredArgument(param)] returns exactly when the
    parameter has a name and raises [AttributeError] otherwise.
    [BadUnionArgument(param, converters, errors)] walks the converters
    before it reads the name of the parameter: it raises [TypeError]
    exactly when the converters cannot be iterated, [AttributeError]
    exactly when they can and the parameter has no name, and returns
    otherwise. *)
Theorem parameter_failures (param converters errors : PyVal) :
  match construct MissingRequiredArgument [param] None with
  | Ok _ => is_named param = true
  | Raise AttributeError => is_named param = false
  | Raise _ => False
  end
  /\ match construct BadUnionArgument [param; converters; errors] None with
     | Ok _ => is_iterable converters = true /\ is_named param = true
     | Raise TypeError => is_iterable converters = false
     | Raise AttributeError =>
         is_iterable converters = true /\ is_named param = false
     | Raise _ => False
     end.
Proof.
  pose proof (is_named_getattr param) as Hparam.
  unfold construct. eval_resolve.
  unfold call_init, MissingRequiredArgument_init, BadUnionArgument_init.
  split.
  - destruct (getattr param "name") as [n | err]; simpl;
      [exact Hparam | destruct Hparam as [-> Hparam]; exact Hparam].
  - destruct converters; simpl; try reflexivity;
      (destruct (getattr param "name") as [n | err]; simpl;
       [ split; [reflexivity | exact Hparam]
       | destruct Hparam as [-> Hparam]; split; [reflexivity | exact Hparam] ]).
Qed.

(** X14. The converters of [BadUnionArgument] are walked, not inspected
    as a tuple: a list of converters gives the message a tuple of the same
    converters gives, and with no converter at all the listing is empty,
    the message ending in ["into ."]. *)
Theorem bad_union_any_sequence (param : Obj) (pname : string)
    (converters : list PyVal) (errors : PyVal) :
  obj_attrs param !! "name" = Some pname ->
  message_of (construct BadUnionArgument
                [PyObj param; PyList converters; errors] None)
  = message_of (construct BadUnionArgument
                  [PyObj param; PyTuple converters; errors] None)
  /\ message_of (construct BadUnionArgument
                   [PyObj param; PyTuple []; errors] None)
     = Ok ("Could not convert " +:+ String dquote pname +:+ String dquote
           " into " +:+ ".").
Proof.
  intros Hname.
  unfold construct, message_of. simpl.
  unfold BadUnionArgument_init. simpl. rewrite Hname.
  split; reflexivity.
Qed.

Lemma bad_union_any_sequence_sample :
  obj_attrs (Samples.parameter_object "target") !! "name" = Some "target"
  /\ message_of (construct BadUnionArgument
                   [PyObj (Samples.parameter_object "target");
                    PyList [Samples.type_object "TypeA"]; PyNone] None)
     = message_of (construct BadUnionArgument
                     [PyObj (Samples.parameter_object "target");
                      PyTuple [Samples.type_object "TypeA"]; PyNone] None)
  /\ message_of (construct BadUnionArgument
                   [PyObj (Samples.parameter_object "target");
                    PyTuple []; PyNone] None)
     = Ok ("Could not convert " +:+ String dquote "target" +:+ String dquote
           " into " +:+ ".").
Proof.
  split; [reflexivity |].
  apply (bad_union_any_sequence (Samples.parameter_object "target") "target").
  reflexivity.
Defined.

(** X15. For the four extension classes with [name] as their only
    parameter, passing the name positionally or by keyword builds the same
    instance: same class, same [args], same attributes. *)
Theorem name_by_position_or_keyword (k : Kind) (n : PyVal) :
  names_extension_only k = true ->
  construct k [n] None = construct k [] (Some n)
  /\ exists e, construct k [n] None = Ok e /\ attr e "name" = Some n.
Proof.
  intros Hk. unfold construct.
  destruct k; try discriminate Hk; eval_resolve;
    (split; [reflexivity | eexists; split; reflexivity]).
Qed.

Lemma name_by_position_or_keyword_sample :
  names_extension_only ExtensionNotFound = true
  /\ construct ExtensionNotFound [PyStr "cogs.music"] None
     = construct ExtensionNotFound [] (Some (PyStr "cogs.music"))
  /\ exists e,
       construct ExtensionNotFound [PyStr "cogs.music"] None = Ok e
       /\ attr e "name" = Some (PyStr "cogs.music").
Proof.
  split; [reflexivity |].
  apply (name_by_position_or_keyword ExtensionNotFound (PyStr "cogs.music")).
  reflexivity.
Defined.

(** ** The seconds of CommandOnCooldown *)

Lemma round_half_even_close (q : Q) :
  (Qabs (inject_Z (round_half_even q) - q) <= 1 # 2)%Q.
Proof.
  pose proof (Qfloor_le q) as Hlo.
  pose proof (Qlt_floor q) as Hhi.
  rewrite inject_Z_plus in Hhi. change (inject_Z 1) with 1%Q in Hhi.
  apply Qabs_Qle_condition.
  unfold round_half_even.
  destruct (Qcompare_spec (q - inject_Z (Qfloor q)) (1 # 2)) as [Heq | Hlt | Hgt].
  - destruct (Z.even (Qfloor q));
      [| rewrite inject_Z_plus; change (inject_Z 1) with 1%Q]; split; lra.
  - split; lra.
  - rewrite inject_Z_plus. change (inject_Z 1) with 1%Q. split; lra.
Qed.

(** X16. The seconds shown by [CommandOnCooldown] are the hundredths
    nearest to the retry-after: for a finite float of magnitude [v] the
    message shows the digits of a whole number [n] of hundredths that is
    not negative and lies within half a hundredth of [v]. *)
Theorem cooldown_shows_nearest_hundredth (cooldown : PyVal) (s : bool)
    (m : positive) (e : Z) :
  exists n : Z,
    message_of (construct CommandOnCooldown
                  [cooldown; PyFloat (S754_finite s m e)] None)
    = Ok ("You are on cooldown. Try again in " +:+
          (sign_str s +:+ pretty (n / 100)%Z +:+ "." +:+ low_digits 2 n)
          +:+ "s")
    /\ (0 <= n)%Z
    /\ (Qabs (inject_Z n - magnitude m e * 100) <= 1 # 2)%Q.
Proof.
  exists (round_half_even (magnitude m e * inject_Z (10 ^ Z.of_nat 2))).
  split; [reflexivity |]. split.
  - apply round_half_even_nonnegative. apply Qmult_le_0_compat.
    + apply magnitude_nonnegative.
    + unfold Qle. simpl. lia.
  - apply round_half_even_close.
Qed.






(** A negative whole number: [-3.0] is shown as [-3.00s]. *)
Lemma cooldown_minus_three :
  message_of (construct CommandOnCooldown
                [Samples.cooldown; PyFloat (float_of_int (-3))] None)
  = Ok "You are on cooldown. Try again in -3.00s".
Proof. vm_compute. reflexivity. Qed.

Lemma starts_with_digit_or_minus (s : string) :
  two_fractional_digits s ->
  exists c rest, s = String c rest /\ (is_digit c = true \/ c = "-"%char).
Proof.
  intros (sign & whole & d1 & d2 & -> & Hsign & Hne & Hdigits & _).
  destruct whole as [| c whole]; [congruence |].
  simpl in Hdigits. apply andb_prop in Hdigits as [Hc _].
  destruct Hsign as [-> | ->].
  - exists c. eexists. split; [reflexivity | left; exact Hc].
  - exists "-"%char. eexists. split; [reflexivity | right; reflexivity].
Qed.

Lemma minus_then_digit (rest : string) :
  two_fractional_digits (String "-" rest) ->
  exists c rest', rest = String c rest' /\ is_digit c = true.
Proof.
  intros (sign & whole & d1 & d2 & Heq & Hsign & Hne & Hdigits & _).
  destruct whole as [| c whole]; [congruence |].
  simpl in Hdigits. apply andb_prop in Hdigits as [Hc _].
  destruct Hsign as [-> | ->].
  - change ("" +:+ String c whole +:+ "." +:+ String d1 (String d2 ""))
      with (String c (whole +:+ "." +:+ String d1 (String d2 ""))) in Heq.
    injection Heq as <- _. discriminate Hc.
  - change ("-" +:+ String c whole +:+ "." +:+ String d1 (String d2 ""))
      with (String "-" (String c (whole +:+ "." +:+ String d1 (String d2 ""))))
      in Heq.
    injection Heq as ->. exists c. eexists. split; [reflexivity | exact Hc].
Qed.

(** X18. A retry-after that is not finite is shown as a word: the message
    carries ["inf"], ["-inf"] or ["nan"] before the ["s"], and none of the
    three has the shape of a number with two fractional digits. *)
Theorem cooldown_not_finite (cooldown : PyVal) (x : float) :
  is_finite x = false ->
  exists word,
    message_of (construct CommandOnCooldown [cooldown; PyFloat x] None)
    = Ok ("You are on cooldown. Try again in " +:+ word +:+ "s")
    /\ (word = "inf" \/ word = "-inf" \/ word = "nan")
    /\ ~ two_fractional_digits word.
Proof.
  intros Hx. destruct x as [s | [|] | | s m e]; try discriminate Hx.
  - exists "-inf". split; [reflexivity |]. split; [tauto |].
    intros H. apply minus_then_digit in H as (c & rest & Heq & Hc).
    injection Heq as <- _. discriminate Hc.
  - exists "inf". split; [reflexivity |]. split; [tauto |].
    intros H. apply starts_with_digit_or_minus in H as (c & rest & Heq & [Hc | Hc]);
      injection Heq as <- _; discriminate Hc.
  - exists "nan". split; [reflexivity |]. split; [tauto |].
    intros H. apply starts_with_digit_or_minus in H as (c & rest & Heq & [Hc | Hc]);
      injection Heq as <- _; discriminate Hc.
Qed.

Lemma cooldown_not_finite_sample :
  is_finite S754_nan = false
  /\ exists word,
       message_of (construct CommandOnCooldown
                     [Samples.cooldown; PyFloat S754_nan] None)
       = Ok ("You are on cooldown. Try again in " +:+ word +:+ "s")
       /\ (word = "inf" \/ word = "-inf" \/ word = "nan")
       /\ ~ two_fractional_digits word.
Proof.
  split; [reflexivity |].
  apply (cooldown_not_finite Samples.cooldown S754_nan). reflexivity.
Defined.

(** ** What the messages show *)

Lemma append_empty_r (a : string) : a +:+ "" = a.
Proof.
  induction a as [| x a IH]; [reflexivity |].
  rewrite append_cons, IH. reflexivity.
Qed.

Lemma occurs_in_refl (s : string) : occurs_in s s.
Proof. exists "", "". rewrite append_empty_r. reflexivity. Qed.

Lemma occurs_in_append_l (s a b : string) :
  occurs_in s a -> occurs_in s (a +:+ b).
Proof.
  intros (before & after & ->). exists before, (after +:+ b).
  rewrite !append_assoc. reflexivity.
Qed.

Lemma occurs_in_append_r (s a b : string) :
  occurs_in s b -> occurs_in s (a +:+ b).
Proof.
  intros (before & after & ->). exists (a +:+ before), after.
  rewrite !append_assoc. reflexivity.
Qed.

(** X19. The two wrapping classes keep the cause and show it: for
    [CommandInvokeError(e)] and [ExtensionFailed(name, e)] the cause is
    read back under [original], and the name of its class and its text
    both occur in the message. *)
Theorem wrappers_show_the_cause (name original : PyVal) :
  (exists e,
     construct CommandInvokeError [original] None = Ok e
     /\ attr e "original" = Some original
     /\ occurs_in (class_name original) (message e)
     /\ occurs_in (py_str original) (message e))
  /\ (exists e,
        construct ExtensionFailed [name; original] None = Ok e
        /\ attr e "original" = Some original
        /\ attr e "name" = Some name
        /\ occurs_in (py_repr name) (message e)
        /\ occurs_in (class_name original) (message e)
        /\ occurs_in (py_str original) (message e)).
Proof.
  split.
  - eexists. split; [reflexivity |]. split; [reflexivity |].
    change (message _)
      with ("Command raised an exception: " +:+ class_name original +:+ ": "
            +:+ py_str original).
    split.
    + apply occurs_in_append_r, occurs_in_append_l, occurs_in_refl.
    + do 3 apply occurs_in_append_r. apply occurs_in_refl.
  - assert (Htruthy :
      py_bool (PyStr ("Extension " +:+ py_repr name +:+ " raised an error: "
                      +:+ class_name original +:+ ": " +:+ py_str original))
      = true).
    { simpl.
      first [ reflexivity
            | rewrite bool_decide_eq_false_2;
              [reflexivity | apply append_nonempty; discriminate] ]. }
    unfold construct. eval_resolve.
    unfold call_init, ExtensionFailed_init, ExtensionError_init, py_or.
    rewrite Htruthy.
    eexists. split; [reflexivity |]. split; [reflexivity |].
    split; [reflexivity |].
    change (message _)
      with ("Extension " +:+ py_repr name +:+ " raised an error: "
            +:+ class_name original +:+ ": " +:+ py_str original).
    split; [| split].
    + apply occurs_in_append_r, occurs_in_append_l, occurs_in_refl.
    + do 3 apply occurs_in_append_r. apply occurs_in_append_l, occurs_in_refl.
    + do 5 apply occurs_in_append_r. apply occurs_in_refl.
Qed.

(** X20. An override that is truthy is used as it is: for
    [PrivateMessageOnly], [PartyMessageOnly] and [ExtensionError] the
    message is then [str(override)], the default text does not appear,
    and [ExtensionError] still keeps the name it was given. *)
Theorem truthy_override_is_kept (override name : PyVal) :
  py_bool override = true ->
  message_of (construct PrivateMessageOnly [override] None)
  = Ok (py_str override)
  /\ message_of (construct PartyMessageOnly [override] None)
     = Ok (py_str override)
  /\ exists e,
       construct ExtensionError [override] (Some name) = Ok e
       /\ message e = py_str override
       /\ attr e "name" = Some name.
Proof.
  intros Htruthy.
  assert (Hnone : is_none override = false)
    by (destruct override; try reflexivity; discriminate Htruthy).
  unfold construct, message_of. eval_resolve.
  unfold call_init, PrivateMessageOnly_init, PartyMessageOnly_init,
    ExtensionError_init, py_or.
  rewrite Htruthy. simpl.
  unfold CommandError_init. rewrite Hnone. simpl.
  split; [reflexivity |]. split; [reflexivity |].
  eexists. repeat split.
Qed.

Lemma truthy_override_is_kept_sample :
  py_bool (PyStr "DMs only") = true
  /\ message_of (construct PrivateMessageOnly [PyStr "DMs only"] None)
     = Ok (py_str (PyStr "DMs only"))
  /\ message_of (construct PartyMessageOnly [PyStr "DMs only"] None)
     = Ok (py_str (PyStr "DMs only"))
  /\ exists e,
       construct ExtensionError [PyStr "DMs only"] (Some (PyStr "cogs.music"))
       = Ok e
       /\ message e = py_str (PyStr "DMs only")
       /\ attr e "name" = Some (PyStr "cogs.music").
Proof.
  split; [reflexivity |].
  apply (truthy_override_is_kept (PyStr "DMs only") (PyStr "cogs.music")).
  reflexivity.
Defined.

Lemma all_printable_append (a b : string) :
  all_printable (a +:+ b) = all_printable a && all_printable b.
Proof.
  induction a as [| c a IH]; [reflexivity |].
  rewrite append_cons. simpl. rewrite IH. apply andb_assoc.
Qed.

Lemma hex_digit_printable (n : N) : printable (hex_digit n) = true.
Proof. unfold hex_digit. repeat case_match; reflexivity. Qed.

Lemma repr_char_printable (quote c : ascii) :
  quote = squote \/ quote = dquote ->
  all_printable (repr_char quote c) = true.
Proof.
  intros Hquote. unfold repr_char.
  destruct (bool_decide (c = quote)) eqn:Hq; simpl.
  - apply bool_decide_eq_true_1 in Hq. subst c.
    destruct Hquote as [-> | ->]; reflexivity.
  - destruct (bool_decide (c = backslash)) eqn:Hb; simpl.
    + apply bool_decide_eq_true_1 in Hb. subst c. reflexivity.
    + repeat (case_match; simpl; try reflexivity).
      * rewrite andb_true_r. assumption.
      * rewrite !hex_digit_printable. reflexivity.
Qed.

Lemma str_repr_printable (s : string) : all_printable (str_repr s) = true.
Proof.
  unfold str_repr.
  set (quote := if contains squote s && negb (contains dquote s)
                then dquote else squote).
  assert (Hquote : quote = squote \/ quote = dquote)
    by (unfold quote; case_match; [right | left]; reflexivity).
  assert (Hprintable : printable quote = true)
    by (destruct Hquote as [-> | ->]; reflexivity).
  simpl. rewrite Hprintable, all_printable_append. simpl.
  rewrite Hprintable. simpl. rewrite andb_true_r.
  clearbody quote. induction s as [| c s IH]; [reflexivity |].
  simpl. rewrite all_printable_append, IH, repr_char_printable by exact Hquote.
  reflexivity.
Qed.

(** X21. The classes that show their one string through [{!r}] never put
    a control character in the message: whatever the string holds, line
    breaks and escapes included, every character of the message is
    printable. *)
Theorem quoted_payload_is_printable (k : Kind) (s : string) :
  quotes_payload k = true ->
  exists text,
    message_of (construct k [PyStr s] None) = Ok text
    /\ all_printable text = true.
Proof.
  intros Hk.
  assert (Htruthy : forall tail,
    py_bool (PyStr ("Extension " +:+ str_repr s +:+ tail)) = true).
  { intros tail. simpl.
    first [ reflexivity
          | rewrite bool_decide_eq_false_2;
            [reflexivity | apply append_nonempty; discriminate] ]. }
  unfold construct, message_of.
  destruct k; try discriminate Hk; eval_resolve;
    unfold call_init; unfold_inits; unfold py_or;
    change (py_repr (PyStr s)) with (str_repr s);
    rewrite ?Htruthy;
    (eexists; split; [reflexivity |]);
    cbv [message BaseException_str CommandError_init FortniteException_init
         BaseException_init args negb is_none py_str setattr
         BaseException_new];
    rewrite ?all_printable_append, str_repr_printable; reflexivity.
Qed.

Lemma quoted_payload_is_printable_sample :
  quotes_payload ExtensionNotFound = true
  /\ exists text,
       message_of (construct ExtensionNotFound
                     [PyStr (String (ascii_of_N 10) "cogs")] None) = Ok text
       /\ all_printable text = true.
Proof.
  split; [reflexivity |].
  apply (quoted_payload_is_printable ExtensionNotFound
           (String (ascii_of_N 10) "cogs")).
  reflexivity.
Defined.

Lemma occurs_in_join (sep x : string) (items : list string) :
  In x items -> occurs_in x (join sep items).
Proof.
  induction items as [| y items IH]; [contradiction |].
  intros [-> | Hin].
  - destruct items; [apply occurs_in_refl |].
    change (join sep (x :: s :: items))
      with (x +:+ sep +:+ join sep (s :: items)).
    apply occurs_in_append_l, occurs_in_refl.
  - destruct items as [| z items]; [contradiction |].
    change (join sep (y :: z :: items))
      with (y +:+ sep +:+ join sep (z :: items)).
    do 2 apply occurs_in_append_r. apply IH. exact Hin.
Qed.

Lemma In_removelast_or_last (x d : string) (items : list string) :
  In x items -> In x (removelast items) \/ x = List.last items d.
Proof.
  induction items as [| y items IH]; [contradiction |].
  intros [-> | Hin].
  - destruct items; [right; reflexivity | left; left; reflexivity].
  - destruct items as [| z items]; [contradiction |].
    destruct (IH Hin) as [H | H]; [left; right; exact H | right; exact H].
Qed.

(** X22. Every converter that was tried is named in the message of
    [BadUnionArgument]: the display name of each item of the converters
    occurs in it, however many there are. *)
Theorem bad_union_names_every_converter (param : Obj) (pname : string)
    (converters : list PyVal) (errors x : PyVal) :
  obj_attrs param !! "name" = Some pname ->
  In x converters ->
  exists text,
    message_of (construct BadUnionArgument
                  [PyObj param; PyTuple converters; errors] None) = Ok text
    /\ occurs_in (display_name x) text.
Proof.
  intros Hname Hin.
  unfold construct, message_of. eval_resolve.
  unfold call_init, BadUnionArgument_init. simpl. rewrite Hname. simpl.
  eexists. split; [reflexivity |].
  unfold message, BaseException_str. simpl.
  rewrite (map_ext _ _ get_name_display).
  assert (Hx : In (display_name x) (map display_name converters))
    by (apply in_map; exact Hin).
  do 3 apply occurs_in_append_r. apply occurs_in_append_l.
  destruct (2 <? length (map display_name converters))%nat.
  - destruct (In_removelast_or_last _ "" _ Hx) as [H | ->].
    + apply occurs_in_append_l, occurs_in_join. exact H.
    + do 2 apply occurs_in_append_r. apply occurs_in_refl.
  - apply occurs_in_join. exact Hx.
Qed.

Lemma bad_union_names_every_converter_sample :
  obj_attrs (Samples.parameter_object "target") !! "name" = Some "target"
  /\ In (Samples.type_object "TypeB")
        [Samples.type_object "TypeA"; Samples.type_object "TypeB";
         Samples.type_object "TypeC"]
  /\ exists text,
       message_of (construct BadUnionArgument
                     [PyObj (Samples.parameter_object "target");
                      PyTuple [Samples.type_object "TypeA";
                               Samples.type_object "TypeB";
                               Samples.type_object "TypeC"];
                      PyNone] None) = Ok text
       /\ occurs_in (display_name (Samples.type_object "TypeB")) text.
Proof.
  split; [reflexivity |]. split; [right; left; reflexivity |].
  apply (bad_union_names_every_converter
           (Samples.parameter_object "target") "target").
  - reflexivity.
  - right; left; reflexivity.
Defined.

End ErrorLaws.
